(** * PixelFlasher spyware detector: the scan / match / remove workflow

    A shallow embedding of [spyware_detector.py] and the properties of
    its scan, classification and removal logic.

    Conventions
    - a Python [str] is a [string]; each [ascii] stands for one code
      point below 256;
    - a value produced by [json.load] is a [pyval];
    - the device, the user and the translation catalogue are outside the
      module ([runtime.get_phone], [runtime.adb], [wx.MessageBox],
      [i18n._]): they are the fields of a [Runtime];
    - statements run in a state-and-exception monad [M] over the dialog
      state: the list control, the started threads, the [wx.CallAfter]
      queue and the log of gateway invocations. *)

From Stdlib Require Import Ascii Floats.PrimFloat.
From stdpp Require Import gmap strings list.

#[local] Set Warnings "-register-all".
#[local] Open Scope string_scope.
#[local] Open Scope list_scope.
#[local] Open Scope Z_scope.

(** ** Python values *)

(** What [json.load] can return: [None], booleans, integers, floats,
    strings, lists and string-keyed dictionaries. *)
Inductive pyval : Type :=
| PNone
| PBool (b : bool)
| PInt (z : Z)
| PFloat (f : float)
| PStr (s : string)
| PList (xs : list pyval)
| PDict (d : gmap string pyval).

(** Truth value testing, as [if v] and [v or w] use it. *)
Definition truthy (v : pyval) : bool :=
  match v with
  | PNone => false
  | PBool b => b
  | PInt z => negb (z =? 0)
  | PFloat f => negb (PrimFloat.eqb f 0%float)
  | PStr s => negb (String.eqb s "")
  | PList xs => match xs with [] => false | _ :: _ => true end
  | PDict d => negb (bool_decide (d = ∅))
  end.

(** [v or w] *)
Definition py_or (v w : pyval) : pyval := if truthy v then v else w.

(** The exception classes that occur. [DeviceCommandError] is the
    specification's name for an error of the device gateway. *)
Inductive exn : Type :=
| JSONDecodeError
| AttributeError
| TypeError
| DeviceCommandError
| OtherError (name : string)
| OutOfFuel.  (* not a Python exception: a loop bound of the model was hit *)

Inductive outcome (A : Type) : Type :=
| Returned (a : A)
| Raised (e : exn).
Arguments Returned {A} a.
Arguments Raised {A} e.

(** [d.get(k)]: only a dictionary has the method; a missing key gives
    [None]. *)
Definition py_get (db : pyval) (k : string) : outcome pyval :=
  match db with
  | PDict d => Returned (default PNone (d !! k))
  | _ => Raised AttributeError
  end.

(** ** Strings *)

(** [str.isspace] on one code point below 256: the characters that
    [str.split()] treats as separators. *)
Definition isspace (c : ascii) : bool :=
  let n := N_of_ascii c in
  ((9 <=? n) && (n <=? 13) || (28 <=? n) && (n <=? 32)
   || (n =? 133) || (n =? 160))%N.

(** [s.split()]: runs of whitespace separate the words, and no empty word
    is produced. [cur] is the word being read. *)
Fixpoint split_from (cur : string) (s : string) : list string :=
  match s with
  | EmptyString => if String.eqb cur "" then [] else [cur]
  | String c s' =>
      if isspace c
      then (if String.eqb cur "" then split_from "" s'
            else cur :: split_from "" s')
      else split_from (cur +:+ String c "") s'
  end.

Definition split (s : string) : list string := split_from "" s.

(** [s] without the leading [p], when it starts with [p]. *)
Fixpoint strip_prefix (p s : string) : option string :=
  match p with
  | EmptyString => Some s
  | String a p' =>
      match s with
      | EmptyString => None
      | String b s' => if Ascii.eqb a b then strip_prefix p' s' else None
      end
  end.

(** [s.removeprefix(p)] *)
Definition removeprefix (p s : string) : string :=
  default s (strip_prefix p s).

(** ** The signature database *)

(** The file beside the module, [SIG_DB_PATH]: it does not exist, or it
    exists and reading it with [json.load] raises or returns a value. *)
Inductive sig_file : Type :=
| FileAbsent
| FilePresent (parsed : outcome pyval).

Definition load_signature_db (f : sig_file) : outcome pyval :=
  match f with
  | FilePresent parsed => parsed
  | FileAbsent => Returned (PDict ∅)
  end.

(** ** The list control *)

(** One item of [ResultList], with the three columns of [COLS], the
    background colour set on it and whether the user has selected it. *)
Record Row : Type := mkRow {
  package : string;
  status : string;
  detection : string;
  background : option (Z * Z * Z);
  selected : bool
}.

Definition new_row (label : string) : Row :=
  mkRow label "" "" None false.

Definition set_col (col : Z) (label : string) (r : Row) : Row :=
  match col with
  | 0 => mkRow label (status r) (detection r) (background r) (selected r)
  | 1 => mkRow (package r) label (detection r) (background r) (selected r)
  | 2 => mkRow (package r) (status r) label (background r) (selected r)
  | _ => r
  end.

Definition set_background (c : Z * Z * Z) (r : Row) : Row :=
  mkRow (package r) (status r) (detection r) (Some c) (selected r).

(** [InsertItem(index, label)]: the new item takes position [index] and
    that position is returned; an index outside [0 .. count] inserts
    nothing and gives -1. *)
Definition lc_InsertItem (index : Z) (label : string) (rows : list Row)
  : Z * list Row :=
  if (0 <=? index) && (index <=? Z.of_nat (length rows))
  then (index,
        take (Z.to_nat index) rows ++ new_row label :: drop (Z.to_nat index) rows)
  else (-1, rows).

(** [SetItem(index, col, label)] and [SetItemBackgroundColour(index, c)]:
    no item is changed when [index] names none. *)
Definition lc_SetItem (index col : Z) (label : string) (rows : list Row)
  : list Row :=
  if 0 <=? index then alter (set_col col label) (Z.to_nat index) rows else rows.

Definition lc_SetItemBackgroundColour (index : Z) (c : Z * Z * Z)
    (rows : list Row) : list Row :=
  if 0 <=? index then alter (set_background c) (Z.to_nat index) rows else rows.

(** [GetItemText(index)]: the first column; empty when there is no such
    item. *)
Definition lc_GetItemText (index : Z) (rows : list Row) : string :=
  if 0 <=? index
  then default "" (package <$> rows !! Z.to_nat index)
  else "".

(** The first selected item after position [item], -1 when there is
    none; [j] is the position of the head of [rows]. *)
Fixpoint next_selected (j : Z) (item : Z) (rows : list Row) : Z :=
  match rows with
  | [] => -1
  | r :: rows' =>
      if (item <? j) && selected r then j
      else next_selected (j + 1) item rows'
  end.

Definition lc_GetNextSelected (item : Z) (rows : list Row) : Z :=
  next_selected 0 item rows.

Definition lc_GetFirstSelected (rows : list Row) : Z :=
  lc_GetNextSelected (-1) rows.

(** ** The outside world *)

(** Modelled from the spec: what a gateway command gives back when it
    returns, its exit status ("non-zero exit") and its output. [runtime.adb]
    is not part of this module, which reads only [stdout] of the result. *)
Record CompletedProcess : Type := mkCompletedProcess {
  returncode : Z;
  stdout : string
}.

(** The imported names the module calls: [runtime.get_phone],
    [runtime.adb], the modal [wx.MessageBox] (its result is the button
    pressed) and [i18n._]. Each call may change the world [Env] and may
    raise. *)
Record Runtime : Type := mkRuntime {
  Env : Type;
  Phone : Type;
  get_phone : Env -> outcome (option Phone) * Env;
  adb : list string -> Env -> outcome CompletedProcess * Env;
  MessageBox : string -> string -> Env -> outcome Z * Env;
  gettext : string -> string
}.

Definition wx_YES : Z := 2.

(** ** Dialog state *)

(** A started thread, by what it has left to run:
    [_worker_scan] before its first statement, [_worker_scan] in its
    [for] loop with the lines still to handle, [_worker_uninstall] in its
    [for] loop with the packages still to remove (the [wx.CallAfter]
    follows the loop), a thread that returned, a thread killed by an
    uncaught exception. *)
Inductive Thread : Type :=
| AtScan
| AtScanLoop (rest : list string)
| AtUninstall (rest : list string)
| Done
| Died (e : exn).

(** A call queued with [wx.CallAfter]. *)
Inductive UiCall : Type :=
| CallMessageBox (msg caption : string)
| CallOnScan.

Record State (R : Runtime) : Type := mkState {
  env : Env R;
  listctrl : list Row;
  threads : list Thread;
  ui_queue : list UiCall;
  adb_log : list (list string)
}.
Arguments mkState {R}.
Arguments env {R}.
Arguments listctrl {R}.
Arguments threads {R}.
Arguments ui_queue {R}.
Arguments adb_log {R}.

Definition set_env {R : Runtime} (e : Env R) (s : State R) : State R :=
  mkState e (listctrl s) (threads s) (ui_queue s) (adb_log s).

Definition set_listctrl {R : Runtime} (rows : list Row) (s : State R)
  : State R :=
  mkState (env s) rows (threads s) (ui_queue s) (adb_log s).

Definition set_threads {R : Runtime} (ts : list Thread) (s : State R)
  : State R :=
  mkState (env s) (listctrl s) ts (ui_queue s) (adb_log s).

Definition set_ui_queue {R : Runtime} (q : list UiCall) (s : State R)
  : State R :=
  mkState (env s) (listctrl s) (threads s) q (adb_log s).

Definition set_adb_log {R : Runtime} (log : list (list string)) (s : State R)
  : State R :=
  mkState (env s) (listctrl s) (threads s) (ui_queue s) log.

(** ** Statements: state and exceptions *)

Definition M (R : Runtime) (A : Type) : Type :=
  State R -> outcome A * State R.

#[global] Instance M_ret {R : Runtime} : MRet (M R) :=
  fun A a s => (Returned a, s).

#[global] Instance M_bind {R : Runtime} : MBind (M R) :=
  fun A B k m s =>
    match m s with
    | (Returned a, s') => k a s'
    | (Raised e, s') => (Raised e, s')
    end.

Section Dialog.
Context {R : Runtime}.

(** The module global [SIG_DB], bound once at import. *)
Variable SIG_DB : pyval.

(** [tr msg] is [_(msg)]. *)
#[local] Abbreviation tr := (gettext R).

(** A pure computation that may raise. *)
Definition lift {A : Type} (o : outcome A) : M R A := fun s => (o, s).

(** Calls into the outside world. A gateway invocation is appended to
    [adb_log] before it runs. *)
Definition call {A : Type} (f : Env R -> outcome A * Env R) : M R A :=
  fun s =>
    let '(o, e) := f (env s) in (o, set_env e s).

Definition call_adb (args : list string) : M R CompletedProcess :=
  fun s => call (adb R args) (set_adb_log (adb_log s ++ [args]) s).

(** [wx.CallAfter(...)] and [Thread(target=..., daemon=True).start()] *)
Definition CallAfter (c : UiCall) : M R unit :=
  fun s => (Returned tt, set_ui_queue (ui_queue s ++ [c]) s).

Definition Thread_start (t : Thread) : M R unit :=
  fun s => (Returned tt, set_threads (threads s ++ [t]) s).

(** The methods of [self.listctrl]. *)
Definition with_rows {A : Type} (f : list Row -> A * list Row) : M R A :=
  fun s =>
    let '(a, rows) := f (listctrl s) in (Returned a, set_listctrl rows s).

Definition DeleteAllItems : M R unit := with_rows (fun _ => (tt, [])).

Definition GetItemCount : M R Z :=
  with_rows (fun rows => (Z.of_nat (length rows), rows)).

Definition InsertItem (index : Z) (label : string) : M R Z :=
  with_rows (lc_InsertItem index label).

(** The label has to be a [str]. *)
Definition SetItem (index col : Z) (label : pyval) : M R unit :=
  match label with
  | PStr l => with_rows (fun rows => (tt, lc_SetItem index col l rows))
  | _ => lift (Raised TypeError)
  end.

Definition SetItemBackgroundColour (index : Z) (c : Z * Z * Z) : M R unit :=
  with_rows (fun rows => (tt, lc_SetItemBackgroundColour index c rows)).

(** *** Scan *)

Definition pm_list_args : list string :=
  ["shell"; "pm"; "list"; "packages"; "-3"].

Definition on_scan : M R unit :=
  DeleteAllItems;;
  Thread_start AtScan.

(** The body of the [for] loop of [_worker_scan]. *)
Definition scan_line (pkg_line : string) : M R unit :=
  let pkg := removeprefix "package:" pkg_line in
  detect ← lift (py_get SIG_DB pkg);
  let status_str := if truthy detect then tr "Suspicious" else tr "Clean" in
  count ← GetItemCount;
  idx ← InsertItem count pkg;
  SetItem idx 1 (PStr status_str);;
  SetItem idx 2 (py_or detect (PStr ""));;
  if truthy detect
  then SetItemBackgroundColour idx (255, 230, 230)
  else mret tt.

Fixpoint scan_loop (pkgs : list string) : M R unit :=
  match pkgs with
  | [] => mret tt
  | pkg_line :: rest => scan_line pkg_line;; scan_loop rest
  end.

Definition _worker_scan : M R unit :=
  phone ← call (get_phone R);
  if negb (bool_decide (is_Some phone))
  then CallAfter (CallMessageBox (tr "No device connected.") (tr "Error"))
  else
    cp ← call_adb pm_list_args;
    scan_loop (split (stdout cp)).

(** *** Remove *)

Definition uninstall_args (p : string) : list string :=
  ["shell"; "pm"; "uninstall"; "--user"; "0"; p].

Fixpoint uninstall_loop (pkgs : list string) : M R unit :=
  match pkgs with
  | [] => mret tt
  | p :: rest => call_adb (uninstall_args p);; uninstall_loop rest
  end.

Definition _worker_uninstall (pkgs : list string) : M R unit :=
  uninstall_loop pkgs;;
  CallAfter CallOnScan.

(** The [while idx != -1] loop of [on_remove]: [fuel] bounds the number
    of iterations. *)
Fixpoint selection_loop (fuel : nat) (rows : list Row) (idx : Z)
    (sel : list string) : option (list string) :=
  if idx =? -1 then Some sel
  else
    match fuel with
    | O => None
    | S fuel' =>
        selection_loop fuel' rows (lc_GetNextSelected idx rows)
          (sel ++ [lc_GetItemText idx rows])
    end.

Definition get_selection : M R (list string) :=
  fun s =>
    let rows := listctrl s in
    match selection_loop (length rows) rows (lc_GetFirstSelected rows) [] with
    | Some sel => (Returned sel, s)
    | None => (Raised OutOfFuel, s)
    end.

Definition newline : string := String "010" "".

Definition on_remove : M R unit :=
  sel ← get_selection;
  match sel with
  | [] => mret tt
  | _ :: _ =>
      let msg :=
        tr ("Uninstall the following?" +:+ newline +:+ newline)
        +:+ String.concat newline sel in
      answer ← call (MessageBox R msg (tr "Confirm"));
      if negb (answer =? wx_YES) then mret tt
      else Thread_start (AtUninstall sel)
  end.

(** *** Threads and the UI queue, one step at a time *)

(** One step of a started thread: the statements of [_worker_scan] up to
    its loop, one iteration of a loop, or the statements after the loop.
    An exception kills the thread and leaves the state as it is then. *)
Definition thread_body (t : Thread) : M R Thread :=
  match t with
  | AtScan =>
      phone ← call (get_phone R);
      if negb (bool_decide (is_Some phone))
      then CallAfter (CallMessageBox (tr "No device connected.") (tr "Error"));;
           mret Done
      else
        cp ← call_adb pm_list_args;
        mret (AtScanLoop (split (stdout cp)))
  | AtScanLoop [] => mret Done
  | AtScanLoop (pkg_line :: rest) =>
      scan_line pkg_line;; mret (AtScanLoop rest)
  | AtUninstall [] => CallAfter CallOnScan;; mret Done
  | AtUninstall (p :: rest) =>
      call_adb (uninstall_args p);; mret (AtUninstall rest)
  | Done => mret Done
  | Died e => mret (Died e)
  end.

Definition thread_step (t : Thread) (s : State R) : Thread * State R :=
  match thread_body t s with
  | (Returned t', s') => (t', s')
  | (Raised e, s') => (Died e, s')
  end.

(** What the user and the scheduler can do: press Scan, press Uninstall,
    let the UI loop run the oldest queued call, let thread [i] take a
    step. *)
Inductive Action : Type :=
| ClickScan
| ClickRemove
| RunQueued
| StepThread (i : nat).

Definition run_queued : M R unit :=
  fun s =>
    match ui_queue s with
    | [] => (Returned tt, s)
    | c :: q =>
        match c with
        | CallMessageBox msg caption =>
            (call (MessageBox R msg caption);; mret tt) (set_ui_queue q s)
        | CallOnScan => on_scan (set_ui_queue q s)
        end
    end.

Definition do_action (a : Action) (s : State R) : State R :=
  match a with
  | ClickScan => snd (on_scan s)
  | ClickRemove => snd (on_remove s)
  | RunQueued => snd (run_queued s)
  | StepThread i =>
      match threads s !! i with
      | None => s
      | Some t =>
          let '(t', s') := thread_step t s in
          set_threads (<[i := t']> (threads s')) s'
      end
  end.

Definition run_schedule (acts : list Action) (s : State R) : State R :=
  fold_left (fun s a => do_action a s) acts s.

(** A scan worker that has started and not finished. *)
Definition scan_in_flight (t : Thread) : bool :=
  match t with
  | AtScan | AtScanLoop _ => true
  | _ => false
  end.

Definition scans_in_flight (s : State R) : nat :=
  length (filter (fun t => scan_in_flight t = true) (threads s)).

(** A thread left to run on its own for [fuel] steps. *)
Fixpoint thread_run (fuel : nat) (t : Thread) (s : State R)
  : Thread * State R :=
  match fuel with
  | O => (t, s)
  | S fuel' => let '(t', s') := thread_step t s in thread_run fuel' t' s'
  end.

(** How a thread ends when its target returns or raises. *)
Definition thread_end (r : outcome unit * State R) : Thread * State R :=
  match r with
  | (Returned _, s') => (Done, s')
  | (Raised e, s') => (Died e, s')
  end.

End Dialog.

(** ** A test double for the outside world *)

Module Fake.

(** Whether a device is attached, what the package listing answers, what
    uninstalling a package answers, and the button the user presses. *)
Record World : Type := mkWorld {
  connected : bool;
  listing : outcome CompletedProcess;
  uninstall : string -> outcome CompletedProcess;
  answer : Z
}.

Definition runtime : Runtime :=
  {| Env := World;
     Phone := unit;
     get_phone w := (Returned (if connected w then Some tt else None), w);
     adb args w :=
       (match args with
        | [_; _; _; _; _; p] => uninstall w p
        | _ => listing w
        end, w);
     MessageBox _ _ w := (Returned (answer w), w);
     gettext msg := msg |}.

Definition lines (l : list string) : string :=
  String.concat newline l.

Definition ok (out : string) : outcome CompletedProcess :=
  Returned (mkCompletedProcess 0 out).

Definition world (pkgs : list string) : World :=
  mkWorld true (ok (lines (map (fun p => "package:" +:+ p) pkgs)))
    (fun _ => ok "Success") wx_YES.

Definition no_device : World :=
  mkWorld false (Raised DeviceCommandError)
    (fun _ => Raised DeviceCommandError) wx_YES.

Definition start (w : World) (rows : list Row) : State runtime :=
  mkState (w : Env runtime) rows [] [] [].

(** A device that is there and whose package listing raises. *)
Definition listing_fails : World :=
  mkWorld true (Raised DeviceCommandError) (fun _ => ok "Success") wx_YES.

(** A device whose package listing prints one package and then exits
    with status 1. *)
Definition listing_exits_nonzero : World :=
  mkWorld true (Returned (mkCompletedProcess 1 "package:com.safe.app"))
    (fun _ => ok "Success") wx_YES.

(** A device on which uninstalling [bad] raises. *)
Definition uninstall_fails (bad : string) : World :=
  mkWorld true (ok "")
    (fun p => if String.eqb p bad then Raised DeviceCommandError
              else ok "Success")
    wx_YES.

Definition tracker_db : gmap string pyval :=
  {[ "com.evil.tracker" := PStr "Tracker X" ]}.

Definition two_apps : World := world ["com.evil.tracker"; "com.safe.app"].

(** A store whose one key has the empty description. *)
Definition blank_db : gmap string pyval := {[ "com.app" := PStr "" ]}.

(** A record left on display by an earlier scan. *)
Definition old_row : Row := mkRow "com.old.app" "Clean" "" None false.

Definition picked_row : Row := mkRow "com.old.app" "Clean" "" None true.

(** Two scans running at once: the second is requested after the first
    has listed the packages, and the two workers then take turns. *)
Definition overlapping_scans : list Action :=
  [ClickScan; StepThread 0; ClickScan; StepThread 1;
   StepThread 0; StepThread 1; StepThread 0; StepThread 1;
   StepThread 0; StepThread 1].

End Fake.

(** ** Runs and outcomes, for the statements below *)

(** A scan on its own: the handler, then the worker it started, with
    nothing running in between. *)
Definition scan {R : Runtime} (SIG_DB : pyval) : M R unit :=
  on_scan;; _worker_scan SIG_DB.

(** [get_phone()] gives [None]. *)
Definition no_device {R : Runtime} (s : State R) : Prop :=
  fst (get_phone R (env s)) = Returned None.

(** A device is there and the package listing raises [x]. *)
Definition listing_raises {R : Runtime} (x : exn) (s : State R) : Prop :=
  exists ph e1,
    get_phone R (env s) = (Returned (Some ph), e1)
    /\ fst (adb R pm_list_args e1) = Raised x.

(** A device is there and the package listing returns [cp]. *)
Definition listing_returns {R : Runtime} (cp : CompletedProcess)
    (s : State R) : Prop :=
  exists ph e1,
    get_phone R (env s) = (Returned (Some ph), e1)
    /\ fst (adb R pm_list_args e1) = Returned cp.

(** The gateway returns for each uninstall of [pkgs] in turn, taking the
    world from [e] to [e']. *)
Inductive uninstalls_return {R : Runtime}
  : list string -> Env R -> Env R -> Prop :=
| uninstalls_nil (e : Env R) : uninstalls_return [] e e
| uninstalls_cons (p : string) (rest : list string) (cp : CompletedProcess)
    (e e1 e2 : Env R) :
    adb R (uninstall_args p) e = (Returned cp, e1) ->
    uninstalls_return rest e1 e2 ->
    uninstalls_return (p :: rest) e e2.

(** [dict[str, str]], the annotated type of [SIG_DB]. *)
Definition str_valued (d : gmap string pyval) : Prop :=
  forall k v, d !! k = Some v -> exists desc, v = PStr desc.

(** ** The specification's wording of the statements that fail *)

(** Status by key membership, detection column by status. *)
Definition status_follows_key {R : Runtime} (d : gmap string pyval)
    (s : State R) : Prop :=
  forall s', scan (PDict d) s = (Returned tt, s') ->
  forall r, r ∈ listctrl s' ->
    (status r = gettext R "Suspicious" <-> package r ∈ dom d)
    /\ (detection r <> "" <-> status r = gettext R "Suspicious").

(** The file is absent, or is not JSON, or is JSON of another shape than
    an object of strings. *)
Definition unavailable (f : sig_file) : Prop :=
  f = FileAbsent
  \/ f = FilePresent (Raised JSONDecodeError)
  \/ exists v, f = FilePresent (Returned v)
               /\ forall d, v = PDict d -> ~ str_valued d.

Definition degrades_to_empty (f : sig_file) : Prop :=
  load_signature_db f = Returned (PDict ∅).

(** Every package of the batch is attempted, in the order given. *)
Definition batch_attempts_every_package {R : Runtime} (pkgs : list string)
    (s : State R) : Prop :=
  adb_log (snd (_worker_uninstall pkgs s))
  = adb_log s ++ map uninstall_args pkgs.

(** A scan that fails leaves the list as it was. *)
Definition failed_scan_keeps_list {R : Runtime} (SIG_DB : pyval)
    (s : State R) : Prop :=
  no_device s \/ (exists x, listing_raises x s) ->
  listctrl (snd (scan SIG_DB s)) = listctrl s.

(** The package listing fails: the call raises, or it returns with a
    non-zero exit status. *)
Definition listing_fails {R : Runtime} (s : State R) : Prop :=
  (exists x, listing_raises x s)
  \/ exists cp, listing_returns cp s /\ returncode cp <> 0.

(** A failed listing makes the scan fail with [DeviceCommandError] and
    leaves no record. *)
Definition failed_listing_fails_scan {R : Runtime} (SIG_DB : pyval)
    (s : State R) : Prop :=
  listing_fails s ->
  fst (scan SIG_DB s) = Raised DeviceCommandError
  /\ listctrl (snd (scan SIG_DB s)) = [].

(** Whatever the user and the scheduler do, at most one scan worker is
    in flight. *)
Definition scans_serialized {R : Runtime} (SIG_DB : pyval) (s : State R)
  : Prop :=
  forall acts, (scans_in_flight (run_schedule SIG_DB acts s) <= 1)%nat.

(** ** What one scanned line becomes *)

(** [SIG_DB.get(pkg)] for the package named on [pkg_line]. *)
Definition looked_up (d : gmap string pyval) (pkg_line : string) : pyval :=
  default PNone (d !! removeprefix "package:" pkg_line).

Definition suspicious_colour : Z * Z * Z := (255, 230, 230).

(** The item [scan_line] appends for [pkg_line] when [SIG_DB] is the
    dictionary [d]: by the truth value of the looked-up description. *)
Definition record_of (tr : string -> string) (d : gmap string pyval)
    (pkg_line : string) : Row :=
  let pkg := removeprefix "package:" pkg_line in
  match looked_up d pkg_line with
  | PStr desc =>
      if String.eqb desc "" then mkRow pkg (tr "Clean") "" None false
      else mkRow pkg (tr "Suspicious") desc (Some suspicious_colour) false
  | v =>
      if truthy v then mkRow pkg (tr "Suspicious") "" None false
      else mkRow pkg (tr "Clean") "" None false
  end.

(** A looked-up value the list control can show: a false one (shown as
    the empty string) or a [str]. *)
Definition showable (v : pyval) : bool :=
  match v with
  | PStr _ => true
  | _ => negb (truthy v)
  end.

(** ** What a whole listing becomes *)

(** What [scan_line] returns or raises for [pkg_line] and the items it
    appends, for any [SIG_DB]: neither depends on the state. *)
Definition line_result (tr : string -> string) (db : pyval)
    (pkg_line : string) : outcome unit * list Row :=
  match db with
  | PDict d =>
      (if showable (looked_up d pkg_line) then Returned tt
       else Raised TypeError,
       [record_of tr d pkg_line])
  | _ => (Raised AttributeError, [])
  end.

(** The same for the loop over the lines: it stops at the first line that
    raises. *)
Fixpoint loop_result (tr : string -> string) (db : pyval)
    (pkgs : list string) : outcome unit * list Row :=
  match pkgs with
  | [] => (Returned tt, [])
  | pkg_line :: rest =>
      match line_result tr db pkg_line with
      | (Returned _, new) =>
          let '(o, more) := loop_result tr db rest in (o, new ++ more)
      | (Raised e, new) => (Raised e, new)
      end
  end.

(** No character of [w] is whitespace. *)
Fixpoint no_space (w : string) : bool :=
  match w with
  | EmptyString => true
  | String c w' => negb (isspace c) && no_space w'
  end.

(** The output of "pm list packages": one line "package:<name>" per
    package, each ended by a newline. *)
Fixpoint pm_output (names : list string) : string :=
  match names with
  | [] => ""
  | p :: rest => "package:" +:+ p +:+ newline +:+ pm_output rest
  end.

(** A world for examples whose listing is printed by [pm_output]. *)
Definition printed_world (names : list string) : Fake.World :=
  Fake.mkWorld true (Fake.ok (pm_output names)) (fun _ => Fake.ok "Success")
    wx_YES.

(** A world for examples in which the user declines the confirmation. *)
Definition declining_world : Fake.World :=
  Fake.mkWorld true (Fake.ok "") (fun _ => Fake.ok "Success") 8.

(** * Properties *)

Example split_ex :
  split ("package:com.a" +:+ String "010" "package:com.b" +:+ String "010" "")
  = ["package:com.a"; "package:com.b"].
Proof. reflexivity. Qed.

Example removeprefix_ex :
  removeprefix "package:" "package:com.a" = "com.a"
  /\ removeprefix "package:" "com.a" = "com.a"
  /\ removeprefix "package:" "package:package:x" = "package:x".
Proof. repeat split. Qed.


Example split_blank_runs :
  split (" a" +:+ String "009" " b" +:+ String "013" (String "010" "")) = ["a"; "b"]
  /\ split "" = []
  /\ split "   " = [].
Proof. repeat split. Qed.

(** No word of [s.split()] is empty. *)
Lemma split_from_nonempty (cur s : string) :
  Forall (fun w => w <> "") (split_from cur s).
Proof.
  revert cur. induction s as [|c s IH]; intros cur; simpl.
  - destruct (String.eqb_spec cur ""); repeat constructor; done.
  - destruct (isspace c); [| apply IH].
    destruct (String.eqb_spec cur ""); [apply IH |].
    constructor; [done | apply IH].
Qed.

Lemma split_nonempty (s : string) : Forall (fun w => w <> "") (split s).
Proof. apply split_from_nonempty. Qed.

(** ** The list control *)

Lemma lc_InsertItem_end (label : string) (rows : list Row) :
  lc_InsertItem (Z.of_nat (length rows)) label rows
  = (Z.of_nat (length rows), rows ++ [new_row label]).
Proof.
  unfold lc_InsertItem.
  rewrite andb_true_intro by (split; apply Z.leb_le; lia).
  rewrite Nat2Z.id, take_ge, drop_ge by lia. reflexivity.
Qed.

Lemma alter_last {A : Type} (f : A -> A) (l : list A) (x : A) :
  alter f (length l) (l ++ [x]) = l ++ [f x].
Proof.
  induction l as [|a l IH]; simpl; [reflexivity | f_equal; exact IH].
Qed.

Lemma lc_SetItem_last (col : Z) (label : string) (rows : list Row) (r : Row) :
  lc_SetItem (Z.of_nat (length rows)) col label (rows ++ [r])
  = rows ++ [set_col col label r].
Proof.
  unfold lc_SetItem. rewrite (proj2 (Z.leb_le _ _)) by lia.
  by rewrite Nat2Z.id, alter_last.
Qed.

Lemma lc_SetItemBackgroundColour_last (c : Z * Z * Z) (rows : list Row)
    (r : Row) :
  lc_SetItemBackgroundColour (Z.of_nat (length rows)) c (rows ++ [r])
  = rows ++ [set_background c r].
Proof.
  unfold lc_SetItemBackgroundColour. rewrite (proj2 (Z.leb_le _ _)) by lia.
  by rewrite Nat2Z.id, alter_last.
Qed.

(** ** One line of the scan *)

Section Scan.
Context {R : Runtime}.
#[local] Abbreviation tr := (gettext R).

Lemma truthy_PStr (desc : string) :
  truthy (PStr desc) = negb (String.eqb desc "").
Proof. reflexivity. Qed.

(** [scan_line] appends exactly one item; it raises [TypeError], after
    the item and its status are in place, when the description found is
    true and not a [str]. *)
Lemma scan_line_dict (d : gmap string pyval) (pkg_line : string) (s : State R) :
  scan_line (PDict d) pkg_line s
  = (if showable (looked_up d pkg_line) then Returned tt else Raised TypeError,
     set_listctrl (listctrl s ++ [record_of tr d pkg_line]) s).
Proof.
  unfold scan_line, record_of, looked_up. simpl.
  set (pkg := removeprefix "package:" pkg_line).
  set (detect := default PNone (d !! pkg)).
  unfold mbind, M_bind, lift, GetItemCount, InsertItem, with_rows. simpl.
  rewrite lc_InsertItem_end. simpl.
  destruct detect as [| b | z | f | desc | xs | m]; simpl;
    unfold py_or; simpl;
    repeat match goal with
      | |- context [if ?c then _ else _] => destruct c eqn:?; simpl
      end;
    unfold SetItem, SetItemBackgroundColour, with_rows, lift, mret, M_ret;
    simpl;
    rewrite ?lc_SetItem_last, ?lc_SetItemBackgroundColour_last;
    try reflexivity; simpl in *; discriminate.
Qed.

Lemma scan_line_not_dict (db : pyval) (pkg_line : string) (s : State R) :
  (forall d, db <> PDict d) ->
  scan_line db pkg_line s = (Raised AttributeError, s).
Proof.
  intros Hdb. unfold scan_line, mbind, M_bind, lift.
  destruct db; try reflexivity. by destruct (Hdb d).
Qed.

(** The loop returns exactly when every description it finds can be
    shown, and then it has appended one item per line, in order. *)
Lemma scan_loop_showable (d : gmap string pyval) (pkgs : list string)
    (s : State R) :
  Forall (fun l => showable (looked_up d l) = true) pkgs ->
  scan_loop (PDict d) pkgs s
  = (Returned tt, set_listctrl (listctrl s ++ map (record_of tr d) pkgs) s).
Proof.
  revert s. induction pkgs as [|l pkgs IH]; intros s Hall; simpl.
  - rewrite app_nil_r. by destruct s.
  - inversion Hall as [|? ? Hl Hrest]; subst.
    unfold mbind, M_bind. rewrite scan_line_dict.
    rewrite Hl, (IH _ Hrest). simpl.
    by rewrite <- app_assoc.
Qed.

Lemma scan_loop_returned (d : gmap string pyval) (pkgs : list string)
    (s s' : State R) :
  scan_loop (PDict d) pkgs s = (Returned tt, s') ->
  Forall (fun l => showable (looked_up d l) = true) pkgs.
Proof.
  revert s. induction pkgs as [|l pkgs IH]; intros s Hrun; [constructor |].
  simpl in Hrun. unfold mbind, M_bind in Hrun.
  rewrite scan_line_dict in Hrun.
  destruct (showable (looked_up d l)) eqn:Hl; [| discriminate].
  constructor; [exact Hl | eauto].
Qed.

Lemma str_valued_showable (d : gmap string pyval) (pkgs : list string) :
  str_valued d -> Forall (fun l => showable (looked_up d l) = true) pkgs.
Proof.
  intros Hd. apply Forall_forall. intros l _. unfold looked_up.
  destruct (d !! removeprefix "package:" l) as [v|] eqn:Hv; [| reflexivity].
  by destruct (Hd _ _ Hv) as [desc ->].
Qed.

(** ** The scan worker, case by case *)

Lemma worker_scan_no_device (SIG_DB : pyval) (s : State R) (e : Env R) :
  get_phone R (env s) = (Returned None, e) ->
  _worker_scan SIG_DB s
  = (Returned tt,
     mkState e (listctrl s) (threads s)
       (ui_queue s ++ [CallMessageBox (tr "No device connected.") (tr "Error")])
       (adb_log s)).
Proof.
  intros Hp. unfold _worker_scan, mbind, M_bind, call. by rewrite Hp.
Qed.

Lemma worker_scan_probe_raises (SIG_DB : pyval) (s : State R) (e : Env R) (x : exn) :
  get_phone R (env s) = (Raised x, e) ->
  _worker_scan SIG_DB s = (Raised x, set_env e s).
Proof.
  intros Hp. unfold _worker_scan, mbind, M_bind, call. by rewrite Hp.
Qed.

Lemma worker_scan_listing_raises (SIG_DB : pyval) (s : State R) (ph : Phone R) (e1 e2 : Env R)
    (x : exn) :
  get_phone R (env s) = (Returned (Some ph), e1) ->
  adb R pm_list_args e1 = (Raised x, e2) ->
  _worker_scan SIG_DB s
  = (Raised x,
     mkState e2 (listctrl s) (threads s) (ui_queue s)
       (adb_log s ++ [pm_list_args])).
Proof.
  intros Hp Ha. unfold _worker_scan, mbind, M_bind, call_adb, call.
  rewrite Hp. simpl. by rewrite Ha.
Qed.

Lemma worker_scan_listed (SIG_DB : pyval) (s : State R) (ph : Phone R) (e1 e2 : Env R)
    (cp : CompletedProcess) :
  get_phone R (env s) = (Returned (Some ph), e1) ->
  adb R pm_list_args e1 = (Returned cp, e2) ->
  _worker_scan SIG_DB s
  = scan_loop SIG_DB (split (stdout cp))
      (mkState e2 (listctrl s) (threads s) (ui_queue s)
         (adb_log s ++ [pm_list_args])).
Proof.
  intros Hp Ha. unfold _worker_scan, mbind, M_bind, call_adb, call.
  rewrite Hp. simpl. by rewrite Ha.
Qed.

Lemma on_scan_run (s : State R) :
  on_scan s
  = (Returned tt,
     mkState (env s) [] (threads s ++ [AtScan]) (ui_queue s) (adb_log s)).
Proof. reflexivity. Qed.

Lemma scan_run (SIG_DB : pyval) (s : State R) :
  scan SIG_DB s
  = _worker_scan SIG_DB
      (mkState (env s) [] (threads s ++ [AtScan]) (ui_queue s) (adb_log s)).
Proof. reflexivity. Qed.

Lemma scan_loop_not_dict_returned (SIG_DB : pyval) (pkgs : list string) (s s' : State R) :
  (forall d, SIG_DB <> PDict d) ->
  scan_loop SIG_DB pkgs s = (Returned tt, s') ->
  pkgs = [] /\ s' = s.
Proof.
  intros Hdb. destruct pkgs as [|l pkgs]; simpl.
  - intros [= <-]. done.
  - unfold mbind, M_bind. by rewrite scan_line_not_dict.
Qed.

Lemma package_record_of (d : gmap string pyval) (pkg_line : string) :
  package (record_of tr d pkg_line) = removeprefix "package:" pkg_line.
Proof.
  unfold record_of.
  destruct (looked_up d pkg_line) as [| b | z | f | desc | xs | m]; simpl;
    repeat match goal with
      | |- context [if ?c then _ else _] => destruct c
      end; reflexivity.
Qed.

(** C4: with no device connected the scan stops at the connectivity
    check: it returns without any gateway invocation (the package listing
    is never asked for), no record is produced, and the error message
    "No device connected." is queued for the user. The worker on its own
    leaves the list control as it found it. *)
Theorem C4_no_device_short_circuit (SIG_DB : pyval) (s : State R) :
  no_device s ->
  exists s',
    scan SIG_DB s = (Returned tt, s')
    /\ adb_log s' = adb_log s
    /\ listctrl s' = []
    /\ ui_queue s'
       = ui_queue s ++ [CallMessageBox (tr "No device connected.") (tr "Error")]
    /\ listctrl (snd (_worker_scan SIG_DB s)) = listctrl s
    /\ adb_log (snd (_worker_scan SIG_DB s)) = adb_log s.
Proof.
  unfold no_device. intros Hno.
  destruct (get_phone R (env s)) as [o e] eqn:Hp. simpl in Hno. subst o.
  rewrite scan_run. rewrite (worker_scan_no_device SIG_DB s e Hp).
  eexists. split; [apply worker_scan_no_device; exact Hp |]. done.
Qed.

(** C6 (as amended): when a device is there and the package listing call
    raises, the scan as a whole raises that same error (so
    [DeviceCommandError] when the gateway raises that), after the one
    listing call, with no record in the list and nothing queued; the
    worker on its own leaves the list control as it found it. A listing
    call that returns is scanned whatever its exit status
    ([scan_listed]). *)
Theorem C6_listing_failure_fails_whole_scan (SIG_DB : pyval) (x : exn) (s : State R) :
  listing_raises x s ->
  exists s',
    scan SIG_DB s = (Raised x, s')
    /\ listctrl s' = []
    /\ adb_log s' = adb_log s ++ [pm_list_args]
    /\ ui_queue s' = ui_queue s
    /\ listctrl (snd (_worker_scan SIG_DB s)) = listctrl s.
Proof.
  intros (ph & e1 & Hp & Ha).
  destruct (adb R pm_list_args e1) as [o e2] eqn:Hadb. simpl in Ha. subst o.
  rewrite scan_run.
  rewrite (worker_scan_listing_raises SIG_DB s ph e1 e2 x Hp Hadb).
  eexists. split; [by apply (worker_scan_listing_raises _ _ ph e1 e2) |]. done.
Qed.

Lemma scan_listed (SIG_DB : pyval) (cp : CompletedProcess) (s : State R) :
  listing_returns cp s ->
  exists e2,
    scan SIG_DB s
    = scan_loop SIG_DB (split (stdout cp))
        (mkState e2 [] (threads s ++ [AtScan]) (ui_queue s)
           (adb_log s ++ [pm_list_args])).
Proof.
  intros (ph & e1 & Hp & Ha).
  destruct (adb R pm_list_args e1) as [o e2] eqn:Hadb. simpl in Ha. subst o.
  exists e2. rewrite scan_run.
  by rewrite (worker_scan_listed SIG_DB _ ph e1 e2 cp).
Qed.

(** C7: when a device is there and the package listing returns, the scan
    (over a store of descriptions that are strings) returns with the list
    holding exactly one record per word of the listing's output, in the
    order of the output; and whatever the store, a scan that returns has
    one record per word, whose package column is the word without a leading
    "package:". *)
Theorem C7_one_record_per_listed_package (SIG_DB : pyval)
    (cp : CompletedProcess) (s : State R) :
  listing_returns cp s ->
  (forall d, str_valued d ->
     exists s',
       scan (PDict d) s = (Returned tt, s')
       /\ listctrl s' = map (record_of tr d) (split (stdout cp)))
  /\ (forall s',
        scan SIG_DB s = (Returned tt, s') ->
        map package (listctrl s')
        = map (removeprefix "package:") (split (stdout cp))
        /\ length (listctrl s') = length (split (stdout cp))).
Proof.
  intros Hl. split.
  - intros d Hd. destruct (scan_listed (PDict d) cp s Hl) as [e2 ->].
    rewrite scan_loop_showable by by apply str_valued_showable.
    eexists. split; reflexivity.
  - intros s'. destruct (scan_listed SIG_DB cp s Hl) as [e2 ->].
    intros Hrun.
    assert (Hrows : listctrl s'
                    = map (record_of tr (match SIG_DB with
                                         | PDict d => d
                                         | _ => ∅
                                         end)) (split (stdout cp))).
    { destruct SIG_DB as [| | | | | | d];
        try (apply scan_loop_not_dict_returned in Hrun as [-> ->];
             [reflexivity | discriminate]).
      pose proof (scan_loop_returned _ _ _ _ Hrun) as Hall.
      rewrite scan_loop_showable in Hrun by exact Hall.
      by injection Hrun as <-. }
    rewrite Hrows, length_map. split; [| reflexivity].
    rewrite map_map. apply map_ext. intros l. apply package_record_of.
Qed.

(** ** Classification *)

Lemma scan_dict_returned (d : gmap string pyval) (s s' : State R) :
  scan (PDict d) s = (Returned tt, s') ->
  exists pkgs,
    listctrl s' = map (record_of tr d) pkgs
    /\ Forall (fun l => showable (looked_up d l) = true) pkgs.
Proof.
  rewrite scan_run. set (s0 := mkState _ _ _ _ _).
  destruct (get_phone R (env s0)) as [[[ph|]|x] e1] eqn:Hp.
  - destruct (adb R pm_list_args e1) as [[cp|x] e2] eqn:Ha.
    + rewrite (worker_scan_listed _ s0 ph e1 e2 cp Hp Ha). intros Hrun.
      pose proof (scan_loop_returned _ _ _ _ Hrun) as Hall.
      rewrite scan_loop_showable in Hrun by exact Hall.
      injection Hrun as <-. by exists (split (stdout cp)).
    + by rewrite (worker_scan_listing_raises _ s0 ph e1 e2 x Hp Ha).
  - rewrite (worker_scan_no_device _ s0 e1 Hp). intros [= <-].
    by exists [].
  - by rewrite (worker_scan_probe_raises _ s0 e1 x Hp).
Qed.

Lemma looked_up_package (d : gmap string pyval) (pkg_line : string) :
  default PNone (d !! package (record_of tr d pkg_line)) = looked_up d pkg_line.
Proof. by rewrite package_record_of. Qed.

Lemma record_of_classified (d : gmap string pyval) (pkg_line : string) :
  tr "Suspicious" <> tr "Clean" ->
  showable (looked_up d pkg_line) = true ->
  let r := record_of tr d pkg_line in
  (status r = tr "Suspicious" <-> truthy (looked_up d pkg_line) = true)
  /\ (detection r <> "" <-> status r = tr "Suspicious").
Proof.
  intros Htr. unfold record_of.
  destruct (looked_up d pkg_line) as [| b | z | f | desc | xs | m];
    unfold showable; cbv zeta; intros Hshow.
  5: { rewrite truthy_PStr.
       destruct (String.eqb_spec desc ""); simpl;
         split; split; intros H; congruence. }
  all: apply negb_true_iff in Hshow; rewrite Hshow; simpl;
    split; split; intros H; congruence.
Qed.

Lemma truthy_str_valued (d : gmap string pyval) (k : string) :
  str_valued d ->
  truthy (default PNone (d !! k)) = true
  <-> exists desc, d !! k = Some (PStr desc) /\ desc <> "".
Proof.
  intros Hd. destruct (d !! k) as [v|] eqn:Hv; simpl.
  - destruct (Hd _ _ Hv) as [desc ->]. rewrite truthy_PStr.
    destruct (String.eqb_spec desc ""); simpl; split.
    + discriminate.
    + intros (desc' & [= <-] & Hne). congruence.
    + intros _. by exists desc.
    + reflexivity.
  - split; [discriminate | by intros (? & ? & _)].
Qed.

(** C1 (as amended): in every scan that returns, a record has status
    Suspicious exactly when the description the store gives for its
    package is true (for a store of strings: the package is a key with a
    non-empty description), and its detection column is non-empty exactly
    when its status is Suspicious. The labels of the two statuses are
    taken to differ. *)
Theorem C1_suspicious_iff_description_nonempty (d : gmap string pyval)
    (s s' : State R) :
  tr "Suspicious" <> tr "Clean" ->
  scan (PDict d) s = (Returned tt, s') ->
  forall r, r ∈ listctrl s' ->
    (status r = tr "Suspicious"
     <-> truthy (default PNone (d !! package r)) = true)
    /\ (str_valued d ->
        status r = tr "Suspicious"
        <-> exists desc, d !! package r = Some (PStr desc) /\ desc <> "")
    /\ (detection r <> "" <-> status r = tr "Suspicious").
Proof.
  intros Htr Hrun r Hr.
  destruct (scan_dict_returned d s s' Hrun) as (pkgs & Hrows & Hall).
  rewrite Hrows in Hr. apply list_elem_of_fmap in Hr as (l & -> & Hl).
  rewrite Forall_forall in Hall. specialize (Hall l Hl).
  destruct (record_of_classified d l Htr Hall) as [Hst Hdet].
  rewrite looked_up_package.
  split; [exact Hst |]. split; [| exact Hdet].
  intros Hd. etrans; [exact Hst |].
  rewrite <- looked_up_package. by apply truthy_str_valued.
Qed.

(** ** A key with an empty description *)

Lemma looked_up_delete_empty (d : gmap string pyval) (k pkg_line : string) :
  d !! k = Some (PStr "") ->
  looked_up (delete k d) pkg_line = looked_up d pkg_line
  \/ (removeprefix "package:" pkg_line = k
      /\ looked_up (delete k d) pkg_line = PNone
      /\ looked_up d pkg_line = PStr "").
Proof.
  intros Hk. unfold looked_up.
  destruct (decide (removeprefix "package:" pkg_line = k)) as [-> | Hne].
  - right. by rewrite lookup_delete_eq, Hk.
  - left. by rewrite lookup_delete_ne.
Qed.

Lemma scan_line_delete_empty (d : gmap string pyval) (k pkg_line : string)
    (s : State R) :
  d !! k = Some (PStr "") ->
  scan_line (PDict (delete k d)) pkg_line s = scan_line (PDict d) pkg_line s.
Proof.
  intros Hk. rewrite !scan_line_dict. unfold record_of.
  by destruct (looked_up_delete_empty d k pkg_line Hk) as [-> | (_ & -> & ->)].
Qed.

Lemma scan_loop_delete_empty (d : gmap string pyval) (k : string)
    (pkgs : list string) (s : State R) :
  d !! k = Some (PStr "") ->
  scan_loop (PDict (delete k d)) pkgs s = scan_loop (PDict d) pkgs s.
Proof.
  intros Hk. revert s. induction pkgs as [|l pkgs IH]; intros s; simpl;
    [reflexivity |].
  unfold mbind, M_bind. rewrite (scan_line_delete_empty d k l s Hk).
  destruct (scan_line (PDict d) l s) as [[[]|x] s1]; [apply IH | reflexivity].
Qed.

(** C10: when the store has the key [k] with the empty string as its
    description, a line naming [k] is appended as a Clean record with an
    empty detection column and no colour, and the scan does on every
    state exactly what it does with [k] removed from the store. *)
Theorem C10_empty_description_reported_clean (d : gmap string pyval)
    (k : string) :
  d !! k = Some (PStr "") ->
  (forall pkg_line (s : State R),
     removeprefix "package:" pkg_line = k ->
     scan_line (PDict d) pkg_line s
     = (Returned tt,
        set_listctrl (listctrl s ++ [mkRow k (tr "Clean") "" None false]) s))
  /\ (forall pkg_line (s : State R),
        scan_line (PDict d) pkg_line s
        = scan_line (PDict (delete k d)) pkg_line s)
  /\ (forall s : State R, scan (PDict d) s = scan (PDict (delete k d)) s).
Proof.
  intros Hk. split; [| split].
  - intros l s <-. rewrite scan_line_dict. unfold record_of, looked_up.
    by rewrite Hk.
  - intros l s. symmetry. by apply scan_line_delete_empty.
  - intros s. rewrite !scan_run. set (s0 := mkState _ _ _ _ _).
    unfold _worker_scan, mbind, M_bind.
    destruct (call (get_phone R) s0) as [[ph|x] s1]; [| reflexivity].
    destruct (negb (bool_decide (is_Some ph))); [reflexivity |].
    destruct (call_adb pm_list_args s1) as [[cp|x] s2]; [| reflexivity].
    symmetry. by apply scan_loop_delete_empty.
Qed.

(** ** A failed scan and the list shown before it *)

(** C5 (as amended): pressing Scan empties the list control before the
    worker starts, so when the scan then fails at the connectivity check
    or at the package listing the list is left empty: the records shown
    before are gone and none is added. *)
Theorem C5_failed_scan_leaves_list_empty (SIG_DB : pyval) (s : State R) :
  no_device s \/ (exists x, listing_raises x s) ->
  listctrl (snd (on_scan s)) = []
  /\ listctrl (snd (scan SIG_DB s)) = [].
Proof.
  intros Hfail. split; [reflexivity |]. rewrite scan_run.
  set (s0 := mkState _ _ _ _ _).
  destruct Hfail as [Hno | (x & ph & e1 & Hp & Ha)].
  - unfold no_device in Hno.
    destruct (get_phone R (env s)) as [o e] eqn:Hp. simpl in Hno. subst o.
    by rewrite (worker_scan_no_device SIG_DB s0 e Hp).
  - destruct (adb R pm_list_args e1) as [o e2] eqn:Hadb. simpl in Ha. subst o.
    by rewrite (worker_scan_listing_raises SIG_DB s0 ph e1 e2 x Hp Hadb).
Qed.

(** ** Loading the store *)

Lemma scan_empty_store_clean (pkgs : list string) (r : Row) :
  r ∈ map (record_of tr ∅) pkgs ->
  status r = tr "Clean" /\ detection r = "" /\ background r = None.
Proof.
  intros Hr. apply list_elem_of_fmap in Hr as (l & -> & _).
  unfold record_of, looked_up. by rewrite lookup_empty.
Qed.

(** C2 (as amended): when the file is absent, loading returns the empty
    mapping, and a scan over it that gets a package listing returns one
    record per listed package, each Clean with an empty detection column.
    When the file is present, loading returns or raises exactly what
    reading it with [json.load] returns or raises, unchecked. *)
Theorem C2_absent_file_loads_empty_store (cp : CompletedProcess)
    (s : State R) :
  listing_returns cp s ->
  load_signature_db FileAbsent = Returned (PDict ∅)
  /\ (forall parsed, load_signature_db (FilePresent parsed) = parsed)
  /\ exists s',
       scan (PDict ∅) s = (Returned tt, s')
       /\ length (listctrl s') = length (split (stdout cp))
       /\ forall r, r ∈ listctrl s' -> status r = tr "Clean" /\ detection r = "".
Proof.
  intros Hl. split; [reflexivity |]. split; [reflexivity |].
  destruct (scan_listed (PDict ∅) cp s Hl) as [e2 ->].
  rewrite scan_loop_showable.
  - eexists. split; [reflexivity |]. simpl. split; [by rewrite length_map |].
    intros r Hr. by destruct (scan_empty_store_clean _ _ Hr) as (? & ? & _).
  - apply Forall_forall. intros l _. unfold looked_up.
    by rewrite lookup_empty.
Qed.

End Scan.

(** ** The selection *)

Lemma next_selected_past (pre post : list Row) (j item : Z) :
  j + Z.of_nat (length pre) <= item + 1 ->
  next_selected j item (pre ++ post)
  = next_selected (j + Z.of_nat (length pre)) item post.
Proof.
  revert j. induction pre as [|r pre IH]; intros j Hj; simpl in *.
  - f_equal. lia.
  - rewrite (proj2 (Z.ltb_ge item j)) by lia. simpl.
    rewrite IH by lia. f_equal. lia.
Qed.

Lemma next_selected_before (rows : list Row) (j item1 item2 : Z) :
  item1 < j -> item2 < j ->
  next_selected j item1 rows = next_selected j item2 rows.
Proof.
  revert j. induction rows as [|r rows IH]; intros j H1 H2; simpl;
    [reflexivity |].
  rewrite (proj2 (Z.ltb_lt item1 j)), (proj2 (Z.ltb_lt item2 j)) by lia.
  destruct (selected r); simpl; [reflexivity | apply IH; lia].
Qed.

Lemma next_selected_none (rows : list Row) (j item : Z) :
  Forall (fun r => selected r = false) rows ->
  next_selected j item rows = -1.
Proof.
  intros Hall. revert j. induction Hall as [|r rows Hr _ IH]; intros j; simpl;
    [reflexivity |].
  by rewrite Hr, andb_false_r.
Qed.

Lemma lc_GetItemText_middle (pre post : list Row) (r : Row) :
  lc_GetItemText (Z.of_nat (length pre)) (pre ++ r :: post) = package r.
Proof.
  unfold lc_GetItemText. rewrite (proj2 (Z.leb_le _ _)) by lia.
  by rewrite Nat2Z.id, list_lookup_middle.
Qed.

Lemma selection_loop_end (fuel : nat) (rows : list Row) (sel : list string) :
  selection_loop fuel rows (-1) sel = Some sel.
Proof. by destruct fuel. Qed.

Lemma selection_loop_step (fuel : nat) (rows : list Row) (idx : Z)
    (sel : list string) :
  idx <> -1 ->
  selection_loop (S fuel) rows idx sel
  = selection_loop fuel rows (lc_GetNextSelected idx rows)
      (sel ++ [lc_GetItemText idx rows]).
Proof. intros Hidx. simpl. by rewrite (proj2 (Z.eqb_neq _ _)). Qed.

(** With as much fuel as there are items the loop ends, and it has
    collected the first column of the selected items, in list order. *)
Lemma selection_loop_suffix (post pre : list Row) (sel : list string)
    (fuel : nat) :
  (length post <= fuel)%nat ->
  selection_loop fuel (pre ++ post)
    (next_selected 0 (Z.of_nat (length pre) - 1) (pre ++ post)) sel
  = Some (sel ++ map package (filter (fun r => selected r = true) post)).
Proof.
  revert pre sel fuel.
  induction post as [|r post IH]; intros pre sel fuel Hfuel.
  - rewrite next_selected_past by lia. simpl.
    by rewrite selection_loop_end, app_nil_r.
  - rewrite next_selected_past, Z.add_0_l by lia. simpl.
    rewrite (proj2 (Z.ltb_lt _ _)) by lia. simpl.
    assert (Hrows : pre ++ r :: post = (pre ++ [r]) ++ post)
      by by rewrite <- app_assoc.
    assert (Hlen : Z.of_nat (length (pre ++ [r])) - 1 = Z.of_nat (length pre))
      by (rewrite length_app; simpl; lia).
    destruct (selected r) eqn:Hr.
    + rewrite filter_cons_True by exact Hr.
      destruct fuel as [|fuel]; simpl in Hfuel; [lia |].
      rewrite selection_loop_step by lia.
      unfold lc_GetNextSelected. rewrite lc_GetItemText_middle.
      rewrite Hrows, <- Hlen, IH by lia.
      by rewrite <- app_assoc.
    + rewrite filter_cons_False by (rewrite Hr; discriminate).
      rewrite (next_selected_before post _ _ (Z.of_nat (length pre))) by lia.
      specialize (IH (pre ++ [r]) sel fuel).
      rewrite <- Hrows, Hlen in IH.
      rewrite next_selected_past, Z.add_0_l in IH by lia. simpl in IH.
      rewrite (proj2 (Z.ltb_ge _ _)) in IH by lia. simpl in IH.
      apply IH. simpl in Hfuel. lia.
Qed.

Section Remove.
Context {R : Runtime}.
#[local] Abbreviation tr := (gettext R).

Lemma get_selection_run (s : State R) :
  get_selection s
  = (Returned (map package (filter (fun r => selected r = true) (listctrl s))),
     s).
Proof.
  unfold get_selection, lc_GetFirstSelected, lc_GetNextSelected.
  pose proof (selection_loop_suffix (listctrl s) [] [] _ (le_n _)) as Hsel.
  simpl in Hsel. change (Z.of_nat 0 - 1) with (-1) in Hsel. by rewrite Hsel.
Qed.

Lemma filter_none_selected (rows : list Row) :
  Forall (fun r => selected r = false) rows ->
  filter (fun r => selected r = true) rows = [].
Proof.
  induction 1 as [|r rows Hr _ IH]; [reflexivity |].
  rewrite filter_cons_False by (rewrite Hr; discriminate). exact IH.
Qed.

Lemma on_remove_run (s : State R) :
  on_remove s
  = match map package (filter (fun r => selected r = true) (listctrl s)) with
    | [] => (Returned tt, s)
    | p :: ps =>
        match
          MessageBox R
            (tr ("Uninstall the following?" +:+ newline +:+ newline)
             +:+ String.concat newline (p :: ps))
            (tr "Confirm") (env s)
        with
        | (Returned answer, e) =>
            if answer =? wx_YES
            then (Returned tt,
                  set_threads (threads s ++ [AtUninstall (p :: ps)])
                    (set_env e s))
            else (Returned tt, set_env e s)
        | (Raised x, e) => (Raised x, set_env e s)
        end
    end.
Proof.
  unfold on_remove, mbind, M_bind. rewrite get_selection_run.
  destruct (map package _) as [|p ps]; [reflexivity |].
  unfold call.
  destruct (MessageBox R _ _ (env s)) as [[answer|x] e]; [| reflexivity].
  by destruct (answer =? wx_YES).
Qed.

(** C8: with no item selected, [on_remove] returns at once and leaves the
    whole state as it was: no gateway invocation, no confirmation dialog,
    no thread started. The uninstall worker itself, given no package,
    issues no gateway invocation either. *)
Theorem C8_empty_selection_no_device_interaction (s : State R) :
  Forall (fun r => selected r = false) (listctrl s) ->
  on_remove s = (Returned tt, s)
  /\ adb_log (snd (on_remove s)) = adb_log s
  /\ threads (snd (on_remove s)) = threads s
  /\ adb_log (snd (_worker_uninstall [] s)) = adb_log s.
Proof.
  intros Hsel.
  assert (Hrun : on_remove s = (Returned tt, s))
    by by rewrite on_remove_run, filter_none_selected.
  by rewrite Hrun.
Qed.

Lemma uninstall_loop_returns (pkgs : list string) (s : State R) (e' : Env R) :
  uninstalls_return pkgs (env s) e' ->
  uninstall_loop pkgs s
  = (Returned tt,
     mkState e' (listctrl s) (threads s) (ui_queue s)
       (adb_log s ++ map uninstall_args pkgs)).
Proof.
  revert s. induction pkgs as [|p pkgs IH]; intros s Hrun;
    inversion Hrun as [| ? ? cp ? e1 ? Hadb Hrest]; subst; simpl.
  - rewrite app_nil_r. by destruct s.
  - unfold mbind, M_bind, call_adb, call. simpl. rewrite Hadb.
    rewrite IH by exact Hrest. simpl. by rewrite <- app_assoc.
Qed.

Lemma uninstall_loop_raises (pre post : list string) (p : string)
    (s : State R) (e1 e2 : Env R) (x : exn) :
  uninstalls_return pre (env s) e1 ->
  adb R (uninstall_args p) e1 = (Raised x, e2) ->
  uninstall_loop (pre ++ p :: post) s
  = (Raised x,
     mkState e2 (listctrl s) (threads s) (ui_queue s)
       (adb_log s ++ map uninstall_args (pre ++ [p]))).
Proof.
  intros Hpre Hp.
  revert s Hpre. induction pre as [|q pre IH]; intros s Hpre;
    inversion Hpre as [| ? ? cp ? e ? Hadb Hrest]; subst; simpl.
  - unfold mbind, M_bind, call_adb, call. simpl. by rewrite Hp.
  - unfold mbind, M_bind, call_adb, call. simpl. rewrite Hadb.
    rewrite IH by exact Hrest. simpl. by rewrite <- app_assoc.
Qed.

(** A gateway call that raises ends the batch: the packages after it are
    not attempted and the rescan is not queued. *)
Lemma worker_uninstall_raises (pre post : list string) (p : string)
    (s : State R) (e1 e2 : Env R) (x : exn) :
  uninstalls_return pre (env s) e1 ->
  adb R (uninstall_args p) e1 = (Raised x, e2) ->
  _worker_uninstall (pre ++ p :: post) s
  = (Raised x,
     mkState e2 (listctrl s) (threads s) (ui_queue s)
       (adb_log s ++ map uninstall_args (pre ++ [p]))).
Proof.
  intros Hpre Hp. unfold _worker_uninstall, mbind, M_bind.
  by rewrite (uninstall_loop_raises pre post p s e1 e2 x Hpre Hp).
Qed.

(** C3 (as amended): when every gateway call of the batch returns,
    whatever it reports, the uninstall worker issues exactly one call
    "pm uninstall --user 0 p" per package, in the order given, keeps
    nothing of what the calls return, then queues a rescan and returns
    no value; the list control and the threads are untouched. *)
Theorem C3_one_uninstall_call_per_package_in_order (pkgs : list string)
    (s : State R) (e' : Env R) :
  uninstalls_return pkgs (env s) e' ->
  _worker_uninstall pkgs s
  = (Returned tt,
     mkState e' (listctrl s) (threads s) (ui_queue s ++ [CallOnScan])
       (adb_log s ++ map uninstall_args pkgs)).
Proof.
  intros Hrun. unfold _worker_uninstall, mbind, M_bind.
  by rewrite (uninstall_loop_returns pkgs s e' Hrun).
Qed.

End Remove.

(** ** Threads *)

Section Threads.
Context {R : Runtime}.
Variable SIG_DB : pyval.

Lemma thread_run_finished (fuel : nat) (t : Thread) (s : State R) :
  scan_in_flight t = false -> (forall l, t <> AtUninstall l) ->
  thread_run SIG_DB fuel t s = (t, s).
Proof.
  intros Ht Hu. induction fuel as [|fuel IH]; [reflexivity |].
  destruct t; try discriminate; try (by simpl; rewrite IH).
  by destruct (Hu rest).
Qed.

(** Stepping a thread through the scan loop does what [scan_loop] does. *)
Lemma thread_run_scan_loop (pkgs : list string) (fuel : nat) (s : State R) :
  (length pkgs < fuel)%nat ->
  thread_run SIG_DB fuel (AtScanLoop pkgs) s
  = thread_end (scan_loop SIG_DB pkgs s).
Proof.
  revert fuel s. induction pkgs as [|l pkgs IH]; intros fuel s Hfuel;
    (destruct fuel as [|fuel]; [simpl in Hfuel; lia |]).
  - simpl. by rewrite thread_run_finished.
  - simpl. unfold thread_step. simpl. unfold mbind, M_bind.
    destruct (scan_line SIG_DB l s) as [[[]|x] s1]; simpl.
    + apply IH. simpl in Hfuel. lia.
    + by rewrite thread_run_finished.
Qed.

Lemma thread_run_uninstall (pkgs : list string) (fuel : nat) (s : State R) :
  (length pkgs < fuel)%nat ->
  thread_run SIG_DB fuel (AtUninstall pkgs) s
  = thread_end (_worker_uninstall pkgs s).
Proof.
  unfold _worker_uninstall.
  revert fuel s. induction pkgs as [|p pkgs IH]; intros fuel s Hfuel;
    (destruct fuel as [|fuel]; [simpl in Hfuel; lia |]).
  - simpl. by rewrite thread_run_finished.
  - simpl. unfold thread_step. simpl. unfold mbind, M_bind.
    destruct (call_adb (uninstall_args p) s) as [[cp|x] s1]; simpl.
    + rewrite IH by (simpl in Hfuel; lia). reflexivity.
    + by rewrite thread_run_finished.
Qed.

(** A scan thread stepped to its end does what [_worker_scan] does. *)
Lemma thread_run_scan (s : State R) :
  exists n, forall fuel, (n <= fuel)%nat ->
    thread_run SIG_DB fuel AtScan s = thread_end (_worker_scan SIG_DB s).
Proof.
  unfold _worker_scan, mbind, M_bind.
  destruct (call (get_phone R) s) as [[phone|x] s1] eqn:Hp.
  - destruct (negb (bool_decide (is_Some phone))) eqn:Hno.
    + exists 1%nat. intros [|fuel] Hfuel; [lia |].
      simpl. unfold thread_step. simpl. unfold mbind, M_bind.
      rewrite Hp, Hno. simpl. by rewrite thread_run_finished.
    + destruct (call_adb pm_list_args s1) as [[cp|x] s2] eqn:Ha.
      * exists (S (S (length (split (stdout cp))))).
        intros [|fuel] Hfuel; [lia |].
        simpl. unfold thread_step. simpl. unfold mbind, M_bind.
        rewrite Hp, Hno, Ha. simpl. apply thread_run_scan_loop. lia.
      * exists 1%nat. intros [|fuel] Hfuel; [lia |].
        simpl. unfold thread_step. simpl. unfold mbind, M_bind.
        rewrite Hp, Hno, Ha. simpl. by rewrite thread_run_finished.
  - exists 1%nat. intros [|fuel] Hfuel; [lia |].
    simpl. unfold thread_step. simpl. unfold mbind, M_bind.
    rewrite Hp. simpl. by rewrite thread_run_finished.
Qed.

Lemma scans_in_flight_click (s : State R) :
  scans_in_flight (do_action SIG_DB ClickScan s) = S (scans_in_flight s).
Proof.
  simpl. unfold scans_in_flight. simpl.
  rewrite filter_app, length_app. simpl. lia.
Qed.

Lemma run_schedule_cons (a : Action) (acts : list Action) (s : State R) :
  run_schedule SIG_DB (a :: acts) s
  = run_schedule SIG_DB acts (do_action SIG_DB a s).
Proof. reflexivity. Qed.

(** C9 (as amended): a scan request is never refused or held back: the
    handler returns, empties the list and starts one more scan worker at
    once, whatever threads are already running; after [n] requests in a
    row there are [n] more scan workers in flight than before. *)
Theorem C9_scan_request_always_starts_worker (s : State R) (n : nat) :
  on_scan s
  = (Returned tt,
     mkState (env s) [] (threads s ++ [AtScan]) (ui_queue s) (adb_log s))
  /\ scans_in_flight (run_schedule SIG_DB (replicate n ClickScan) s)
     = (scans_in_flight s + n)%nat.
Proof.
  split; [reflexivity |]. revert s.
  induction n as [|n IH]; intros s.
  - simpl. lia.
  - change (replicate (S n) ClickScan) with (ClickScan :: replicate n ClickScan).
    rewrite run_schedule_cons, IH, scans_in_flight_click. lia.
Qed.

End Threads.

(** ** The statements at concrete worlds *)

Lemma C4_witness :
  no_device (Fake.start Fake.no_device [Fake.old_row])
  /\ exists s',
       scan (PDict Fake.tracker_db) (Fake.start Fake.no_device [Fake.old_row])
       = (Returned tt, s')
       /\ adb_log s' = []
       /\ listctrl s' = []
       /\ ui_queue s' = [CallMessageBox "No device connected." "Error"]
       /\ listctrl (snd (_worker_scan (PDict Fake.tracker_db)
                           (Fake.start Fake.no_device [Fake.old_row])))
          = [Fake.old_row]
       /\ adb_log (snd (_worker_scan (PDict Fake.tracker_db)
                          (Fake.start Fake.no_device [Fake.old_row])))
          = [].
Proof.
  split; [reflexivity |].
  apply (C4_no_device_short_circuit (PDict Fake.tracker_db)
           (Fake.start Fake.no_device [Fake.old_row])).
  reflexivity.
Defined.

Lemma C6_witness :
  listing_raises DeviceCommandError (Fake.start Fake.listing_fails [])
  /\ exists s',
       scan (PDict Fake.tracker_db) (Fake.start Fake.listing_fails [])
       = (Raised DeviceCommandError, s')
       /\ listctrl s' = []
       /\ adb_log s' = [pm_list_args]
       /\ ui_queue s' = []
       /\ listctrl (snd (_worker_scan (PDict Fake.tracker_db)
                           (Fake.start Fake.listing_fails [])))
          = [].
Proof.
  assert (Hfail : listing_raises DeviceCommandError
                    (Fake.start Fake.listing_fails []))
    by (exists tt, Fake.listing_fails; split; reflexivity).
  split; [exact Hfail |].
  exact (C6_listing_failure_fails_whole_scan (PDict Fake.tracker_db)
           DeviceCommandError (Fake.start Fake.listing_fails []) Hfail).
Defined.

(** C6 as the specification states it fails when the listing call returns
    with a non-zero exit status: the status is not looked at, the scan
    returns and the package printed before the failure is on display. *)
Lemma C6_counterexample :
  ~ failed_listing_fails_scan (PDict Fake.tracker_db)
      (Fake.start Fake.listing_exits_nonzero []).
Proof.
  intros Hclaim.
  assert (Hfails : listing_fails (Fake.start Fake.listing_exits_nonzero [])).
  { right. exists (mkCompletedProcess 1 "package:com.safe.app").
    split; [| discriminate].
    exists tt, Fake.listing_exits_nonzero. split; reflexivity. }
  destruct (Hclaim Hfails) as [Hraised _].
  vm_compute in Hraised. discriminate.
Qed.

Lemma two_apps_listed :
  listing_returns
    (mkCompletedProcess 0
       (Fake.lines ["package:com.evil.tracker"; "package:com.safe.app"]))
    (Fake.start Fake.two_apps []).
Proof. exists tt, Fake.two_apps. split; reflexivity. Qed.

Lemma tracker_db_str_valued : str_valued Fake.tracker_db.
Proof.
  intros k v Hk. unfold Fake.tracker_db in Hk.
  apply lookup_singleton_Some in Hk as [_ <-]. by eexists.
Qed.

Lemma C7_witness :
  listing_returns
    (mkCompletedProcess 0
       (Fake.lines ["package:com.evil.tracker"; "package:com.safe.app"]))
    (Fake.start Fake.two_apps [])
  /\ exists s',
       scan (PDict Fake.tracker_db) (Fake.start Fake.two_apps [])
       = (Returned tt, s')
       /\ listctrl s'
          = [mkRow "com.evil.tracker" "Suspicious" "Tracker X"
               (Some suspicious_colour) false;
             mkRow "com.safe.app" "Clean" "" None false].
Proof.
  split; [exact two_apps_listed |].
  exact (proj1 (C7_one_record_per_listed_package (PDict Fake.tracker_db) _ _
                  two_apps_listed)
           Fake.tracker_db tracker_db_str_valued).
Defined.

Lemma two_apps_scan :
  scan (PDict Fake.tracker_db) (Fake.start Fake.two_apps [])
  = (Returned tt,
     snd (scan (PDict Fake.tracker_db) (Fake.start Fake.two_apps []))).
Proof. vm_compute. reflexivity. Qed.

Lemma C1_witness :
  gettext Fake.runtime "Suspicious" <> gettext Fake.runtime "Clean"
  /\ scan (PDict Fake.tracker_db) (Fake.start Fake.two_apps [])
     = (Returned tt,
        snd (scan (PDict Fake.tracker_db) (Fake.start Fake.two_apps [])))
  /\ forall r,
       r ∈ listctrl
             (snd (scan (PDict Fake.tracker_db) (Fake.start Fake.two_apps []))) ->
       (status r = "Suspicious"
        <-> truthy (default PNone (Fake.tracker_db !! package r)) = true)
       /\ (str_valued Fake.tracker_db ->
           status r = "Suspicious"
           <-> exists desc,
                 Fake.tracker_db !! package r = Some (PStr desc) /\ desc <> "")
       /\ (detection r <> "" <-> status r = "Suspicious").
Proof.
  assert (Htr : gettext Fake.runtime "Suspicious"
                <> gettext Fake.runtime "Clean") by discriminate.
  split; [exact Htr |]. split; [exact two_apps_scan |].
  exact (C1_suspicious_iff_description_nonempty Fake.tracker_db
           (Fake.start Fake.two_apps []) _ Htr two_apps_scan).
Defined.

(** C1 as the specification states it fails on a store that lists a
    package with an empty description: the package is a key of the store
    and its record is Clean. *)
Lemma C1_counterexample :
  ~ status_follows_key Fake.blank_db
      (Fake.start (Fake.world ["com.app"]) []).
Proof.
  intros Hclaim.
  set (s := Fake.start (Fake.world ["com.app"]) []) in *.
  assert (Hrun : scan (PDict Fake.blank_db) s
                 = (Returned tt,
                    set_listctrl [mkRow "com.app" "Clean" "" None false]
                      (snd (scan (PDict Fake.blank_db) s))))
    by (vm_compute; reflexivity).
  destruct (Hclaim _ Hrun (mkRow "com.app" "Clean" "" None false)) as [[_ Hkey] _].
  { simpl. apply list_elem_of_here. }
  assert (Hst : "Clean" = "Suspicious"); [| discriminate].
  apply Hkey. simpl. apply elem_of_dom. exists (PStr ""). reflexivity.
Qed.

Lemma C10_witness :
  Fake.blank_db !! "com.app" = Some (PStr "")
  /\ scan (PDict Fake.blank_db) (Fake.start (Fake.world ["com.app"]) [])
     = scan (PDict (delete "com.app" Fake.blank_db))
         (Fake.start (Fake.world ["com.app"]) [])
  /\ listctrl
       (snd (scan (PDict Fake.blank_db)
               (Fake.start (Fake.world ["com.app"]) [])))
     = [mkRow "com.app" "Clean" "" None false].
Proof.
  assert (Hk : Fake.blank_db !! "com.app" = Some (PStr "")) by reflexivity.
  split; [exact Hk |].
  split; [| vm_compute; reflexivity].
  exact (proj2 (proj2 (C10_empty_description_reported_clean
                         (R := Fake.runtime) Fake.blank_db "com.app" Hk))
           (Fake.start (Fake.world ["com.app"]) [])).
Defined.

Lemma C2_witness :
  listing_returns
    (mkCompletedProcess 0
       (Fake.lines ["package:com.evil.tracker"; "package:com.safe.app"]))
    (Fake.start Fake.two_apps [])
  /\ load_signature_db FileAbsent = Returned (PDict ∅)
  /\ exists s',
       scan (PDict ∅) (Fake.start Fake.two_apps []) = (Returned tt, s')
       /\ length (listctrl s') = 2%nat
       /\ forall r, r ∈ listctrl s' -> status r = "Clean" /\ detection r = "".
Proof.
  split; [exact two_apps_listed |].
  destruct (C2_absent_file_loads_empty_store _ _ two_apps_listed)
    as (Habsent & _ & s' & Hrun & Hlen & Hclean).
  split; [exact Habsent |].
  exists s'. split; [exact Hrun |]. split; [exact Hlen | exact Hclean].
Defined.

(** C2 as the specification states it fails on a file that is not JSON:
    loading raises instead of giving the empty mapping. It fails as well
    on a file holding a JSON array: loading returns the array. *)
Lemma C2_counterexample :
  (unavailable (FilePresent (Raised JSONDecodeError))
   /\ ~ degrades_to_empty (FilePresent (Raised JSONDecodeError)))
  /\ (unavailable (FilePresent (Returned (PList [])))
      /\ ~ degrades_to_empty (FilePresent (Returned (PList [])))).
Proof.
  split; split.
  - right. by left.
  - discriminate.
  - right. right. exists (PList []). split; [reflexivity | discriminate].
  - discriminate.
Qed.

(** With an array for store the scan dies on the first package, and with
    a number for description it dies after marking the package
    Suspicious. *)
Example wrong_shape_scans :
  fst (scan (PList []) (Fake.start Fake.two_apps [])) = Raised AttributeError
  /\ fst (scan (PDict {[ "com.safe.app" := PInt 1 ]})
            (Fake.start Fake.two_apps []))
     = Raised TypeError
  /\ map status
       (listctrl (snd (scan (PDict {[ "com.safe.app" := PInt 1 ]})
                         (Fake.start Fake.two_apps []))))
     = ["Clean"; "Suspicious"].
Proof. repeat split; vm_compute; reflexivity. Qed.

Lemma C5_witness :
  (no_device (Fake.start Fake.no_device [Fake.old_row])
   \/ exists x, listing_raises x (Fake.start Fake.no_device [Fake.old_row]))
  /\ listctrl (snd (on_scan (Fake.start Fake.no_device [Fake.old_row]))) = []
  /\ listctrl (snd (scan (PDict Fake.tracker_db)
                      (Fake.start Fake.no_device [Fake.old_row])))
     = [].
Proof.
  assert (Hfail : no_device (Fake.start Fake.no_device [Fake.old_row])
                  \/ exists x,
                       listing_raises x
                         (Fake.start Fake.no_device [Fake.old_row]))
    by (left; reflexivity).
  split; [exact Hfail |].
  exact (C5_failed_scan_leaves_list_empty (PDict Fake.tracker_db) _ Hfail).
Defined.

(** C5 as the specification states it fails when no device is connected
    and a record is on display: the record is gone after the scan. *)
Lemma C5_counterexample :
  ~ failed_scan_keeps_list (PDict Fake.tracker_db)
      (Fake.start Fake.no_device [Fake.old_row]).
Proof.
  intros Hclaim.
  assert (Hkept : [] = [Fake.old_row]); [| discriminate].
  apply Hclaim. left. reflexivity.
Qed.

Lemma two_uninstalls_return :
  uninstalls_return (R := Fake.runtime) ["com.evil.tracker"; "com.ghost.app"]
    Fake.two_apps Fake.two_apps.
Proof.
  eapply uninstalls_cons; [reflexivity |].
  eapply uninstalls_cons; [reflexivity |].
  apply uninstalls_nil.
Qed.

Lemma C3_witness :
  uninstalls_return (R := Fake.runtime) ["com.evil.tracker"; "com.ghost.app"]
    Fake.two_apps Fake.two_apps
  /\ _worker_uninstall ["com.evil.tracker"; "com.ghost.app"]
       (Fake.start Fake.two_apps [Fake.old_row])
     = (Returned tt,
        mkState (Fake.two_apps : Env Fake.runtime) [Fake.old_row] []
          [CallOnScan]
          [uninstall_args "com.evil.tracker"; uninstall_args "com.ghost.app"]).
Proof.
  split; [exact two_uninstalls_return |].
  exact (C3_one_uninstall_call_per_package_in_order
           ["com.evil.tracker"; "com.ghost.app"]
           (Fake.start Fake.two_apps [Fake.old_row]) Fake.two_apps
           two_uninstalls_return).
Defined.

(** C3 as the specification states it fails when the gateway raises on
    the first of two packages: the second is never attempted. *)
Lemma C3_counterexample :
  ~ batch_attempts_every_package ["com.a"; "com.b"]
      (Fake.start (Fake.uninstall_fails "com.a") []).
Proof.
  unfold batch_attempts_every_package.
  assert (Hlog : adb_log
                   (snd (_worker_uninstall ["com.a"; "com.b"]
                           (Fake.start (Fake.uninstall_fails "com.a") [])))
                 = [uninstall_args "com.a"])
    by (vm_compute; reflexivity).
  rewrite Hlog. discriminate.
Qed.

Lemma C8_witness :
  Forall (fun r => selected r = false)
    (listctrl (Fake.start Fake.two_apps [Fake.old_row]))
  /\ on_remove (Fake.start Fake.two_apps [Fake.old_row])
     = (Returned tt, Fake.start Fake.two_apps [Fake.old_row]).
Proof.
  assert (Hnone : Forall (fun r => selected r = false)
                    (listctrl (Fake.start Fake.two_apps [Fake.old_row])))
    by (repeat constructor).
  split; [exact Hnone |].
  exact (proj1 (C8_empty_selection_no_device_interaction
                  (Fake.start Fake.two_apps [Fake.old_row]) Hnone)).
Defined.

(** With an item selected and the confirmation given, the uninstall
    worker is started on the selection. *)
Example on_remove_confirmed :
  threads (snd (on_remove (Fake.start Fake.two_apps
                             [Fake.picked_row; Fake.old_row])))
  = [AtUninstall ["com.old.app"]].
Proof. vm_compute. reflexivity. Qed.

(** C9 as the specification states it fails: two presses of Scan leave
    two scan workers in flight, and when the two workers take turns the
    list ends with every package twice. *)
Lemma C9_counterexample :
  ~ scans_serialized (PDict Fake.tracker_db)
      (Fake.start (Fake.world ["com.a"; "com.b"]) [])
  /\ map package
       (listctrl
          (run_schedule (PDict Fake.tracker_db) Fake.overlapping_scans
             (Fake.start (Fake.world ["com.a"; "com.b"]) [])))
     = ["com.a"; "com.a"; "com.b"; "com.b"].
Proof.
  split; [| vm_compute; reflexivity].
  intros Hclaim. specialize (Hclaim [ClickScan; ClickScan]).
  vm_compute in Hclaim. lia.
Qed.

(** * More on the scan *)

Section ScanFrame.
Context {R : Runtime}.
#[local] Abbreviation tr := (gettext R).

Lemma scan_line_result (db : pyval) (pkg_line : string) (s : State R) :
  scan_line db pkg_line s
  = (fst (line_result tr db pkg_line),
     set_listctrl (listctrl s ++ snd (line_result tr db pkg_line)) s).
Proof.
  destruct db as [| | | | | | d];
    try (rewrite scan_line_not_dict by discriminate; simpl;
         rewrite app_nil_r; by destruct s).
  by rewrite scan_line_dict.
Qed.

Lemma scan_loop_result (db : pyval) (pkgs : list string) (s : State R) :
  scan_loop db pkgs s
  = (fst (loop_result tr db pkgs),
     set_listctrl (listctrl s ++ snd (loop_result tr db pkgs)) s).
Proof.
  revert s. induction pkgs as [|l pkgs IH]; intros s; simpl.
  - rewrite app_nil_r. by destruct s.
  - unfold mbind, M_bind. rewrite scan_line_result.
    destruct (line_result tr db l) as [[[]|x] new]; simpl; [| reflexivity].
    rewrite IH. destruct (loop_result tr db pkgs) as [o more]. simpl.
    by rewrite <- app_assoc.
Qed.

Lemma loop_result_length (db : pyval) (pkgs : list string) :
  (length (snd (loop_result tr db pkgs)) <= length pkgs)%nat.
Proof.
  induction pkgs as [|l pkgs IH]; simpl; [lia |].
  destruct db as [| | | | | | d]; simpl; try lia.
  destruct (showable (looked_up d l)); simpl; [| lia].
  destruct (loop_result tr (PDict d) pkgs) as [o more]. simpl in *. lia.
Qed.

(** The four ways [_worker_scan] can go, read off the first two calls. *)
Lemma worker_scan_cases (db : pyval) (s : State R) :
  (exists e, get_phone R (env s) = (Returned None, e)
     /\ _worker_scan db s
        = (Returned tt,
           mkState e (listctrl s) (threads s)
             (ui_queue s
              ++ [CallMessageBox (tr "No device connected.") (tr "Error")])
             (adb_log s)))
  \/ (exists x e, get_phone R (env s) = (Raised x, e)
        /\ _worker_scan db s = (Raised x, set_env e s))
  \/ (exists ph e1 x e2,
        get_phone R (env s) = (Returned (Some ph), e1)
        /\ adb R pm_list_args e1 = (Raised x, e2)
        /\ _worker_scan db s
           = (Raised x,
              mkState e2 (listctrl s) (threads s) (ui_queue s)
                (adb_log s ++ [pm_list_args])))
  \/ (exists ph e1 cp e2,
        get_phone R (env s) = (Returned (Some ph), e1)
        /\ adb R pm_list_args e1 = (Returned cp, e2)
        /\ _worker_scan db s
           = (fst (loop_result tr db (split (stdout cp))),
              mkState e2
                (listctrl s ++ snd (loop_result tr db (split (stdout cp))))
                (threads s) (ui_queue s) (adb_log s ++ [pm_list_args]))).
Proof.
  destruct (get_phone R (env s)) as [[[ph|]|x] e1] eqn:Hp.
  - destruct (adb R pm_list_args e1) as [[cp|x] e2] eqn:Ha.
    + right. right. right. exists ph, e1, cp, e2.
      split; [reflexivity |]. split; [exact Ha |].
      rewrite (worker_scan_listed db s ph e1 e2 cp Hp Ha).
      by rewrite scan_loop_result.
    + right. right. left. exists ph, e1, x, e2.
      split; [reflexivity |]. split; [exact Ha |].
      by apply (worker_scan_listing_raises db s ph e1 e2 x).
  - left. exists e1. split; [reflexivity |]. by apply worker_scan_no_device.
  - right. left. exists x, e1. split; [reflexivity |].
    by apply worker_scan_probe_raises.
Qed.

(** X1: whatever the store, the device and the outcome, the scan
    worker only appends to the list control (the items shown before stay
    where they are, unchanged), starts no thread, and issues at most one
    gateway command, the package listing: it never uninstalls. *)
Theorem X1_worker_scan_only_appends_and_lists (db : pyval) (s : State R) :
  (exists new, listctrl (snd (_worker_scan db s)) = listctrl s ++ new)
  /\ threads (snd (_worker_scan db s)) = threads s
  /\ (adb_log (snd (_worker_scan db s)) = adb_log s
      \/ adb_log (snd (_worker_scan db s)) = adb_log s ++ [pm_list_args]).
Proof.
  destruct (worker_scan_cases db s)
    as [(e & _ & ->) | [(x & e & _ & ->) | [(ph & e1 & x & e2 & _ & _ & ->)
       | (ph & e1 & cp & e2 & _ & _ & ->)]]]; simpl.
  - split; [exists []; by rewrite app_nil_r |]. split; [done | by left].
  - split; [exists []; by rewrite app_nil_r |]. split; [done | by left].
  - split; [exists []; by rewrite app_nil_r |]. split; [done | by right].
  - split; [by eexists |]. split; [done | by right].
Qed.

Lemma worker_scan_env_only (db : pyval) (s1 s2 : State R) :
  env s1 = env s2 -> listctrl s1 = listctrl s2 ->
  fst (_worker_scan db s1) = fst (_worker_scan db s2)
  /\ listctrl (snd (_worker_scan db s1)) = listctrl (snd (_worker_scan db s2))
  /\ env (snd (_worker_scan db s1)) = env (snd (_worker_scan db s2)).
Proof.
  intros Henv Hrows.
  destruct (worker_scan_cases db s1)
    as [(e & Hp & ->) | [(x & e & Hp & ->) | [(ph & e1 & x & e2 & Hp & Ha & ->)
       | (ph & e1 & cp & e2 & Hp & Ha & ->)]]];
    rewrite Henv in Hp.
  - by rewrite (worker_scan_no_device db s2 e Hp).
  - by rewrite (worker_scan_probe_raises db s2 e x Hp).
  - by rewrite (worker_scan_listing_raises db s2 ph e1 e2 x Hp Ha).
  - rewrite (worker_scan_listed db s2 ph e1 e2 cp Hp Ha), scan_loop_result.
    simpl. by rewrite Hrows.
Qed.

(** X2: what a scan returns or raises, the list it leaves on display and
    the world it leaves behind depend on the world it starts in only: not
    on the items shown before, nor on the threads started, the calls
    queued or the gateway calls made earlier. *)
Theorem X2_scan_forgets_previous_display (db : pyval) (s1 s2 : State R) :
  env s1 = env s2 ->
  fst (scan db s1) = fst (scan db s2)
  /\ listctrl (snd (scan db s1)) = listctrl (snd (scan db s2))
  /\ env (snd (scan db s1)) = env (snd (scan db s2)).
Proof.
  intros Henv. rewrite !scan_run. by apply worker_scan_env_only.
Qed.

(** X3: a scan repeated in a world the first scan left as it found it
    ends the same way and shows the same records in the same order. *)
Theorem X3_scan_twice_same_records (db : pyval) (s : State R) :
  env (snd (scan db s)) = env s ->
  fst (scan db (snd (scan db s))) = fst (scan db s)
  /\ listctrl (snd (scan db (snd (scan db s)))) = listctrl (snd (scan db s)).
Proof.
  intros Henv. rewrite (scan_run db (snd (scan db s))), (scan_run db s).
  set (s1 := snd _). 
  destruct (worker_scan_env_only db
              (mkState (env s1) [] (threads s1 ++ [AtScan]) (ui_queue s1)
                 (adb_log s1))
              (mkState (env s) [] (threads s ++ [AtScan]) (ui_queue s)
                 (adb_log s)) Henv eq_refl) as (Ho & Hl & _).
  by split.
Qed.

(** X4: when [SIG_DB] is not a dictionary (the file held some other JSON
    value), a scan that gets a listing with at least one word raises
    [AttributeError] at the first word and shows no record; a listing
    without words is scanned without error and shows no record either. *)
Theorem X4_store_of_wrong_type (db : pyval) (cp : CompletedProcess)
    (s : State R) :
  (forall d, db <> PDict d) ->
  listing_returns cp s ->
  fst (scan db s)
  = (if decide (split (stdout cp) = []) then Returned tt
     else Raised AttributeError)
  /\ listctrl (snd (scan db s)) = [].
Proof.
  intros Hdb Hl. destruct (scan_listed db cp s Hl) as [e2 ->].
  rewrite scan_loop_result.
  destruct (split (stdout cp)) as [|l pkgs]; [by rewrite decide_True |].
  rewrite decide_False by discriminate. simpl.
  destruct db; try done. by destruct (Hdb d).
Qed.

Lemma record_of_highlight (d : gmap string pyval) (pkg_line : string) :
  tr "Suspicious" <> tr "Clean" ->
  showable (looked_up d pkg_line) = true ->
  let r := record_of tr d pkg_line in
  (background r = Some (255, 230, 230) <-> status r = tr "Suspicious")
  /\ (background r = None <-> status r = tr "Clean")
  /\ selected r = false.
Proof.
  intros Htr. unfold record_of.
  destruct (looked_up d pkg_line) as [| b | z | f | desc | xs | m];
    unfold showable; cbv zeta; intros Hshow.
  5: { destruct (String.eqb_spec desc ""); simpl;
         repeat split; intros H; congruence. }
  all: apply negb_true_iff in Hshow; rewrite Hshow; simpl;
    repeat split; intros H; congruence.
Qed.

(** X5: in every scan that returns, a record has the background colour
    (255, 230, 230) exactly when its status is Suspicious and no
    background colour exactly when it is Clean, and no record is
    selected. The labels of the two statuses are taken to differ. *)
Theorem X5_highlight_iff_suspicious (d : gmap string pyval) (s s' : State R) :
  tr "Suspicious" <> tr "Clean" ->
  scan (PDict d) s = (Returned tt, s') ->
  forall r, r ∈ listctrl s' ->
    (background r = Some (255, 230, 230) <-> status r = tr "Suspicious")
    /\ (background r = None <-> status r = tr "Clean")
    /\ selected r = false.
Proof.
  intros Htr Hrun r Hr.
  destruct (scan_dict_returned d s s' Hrun) as (pkgs & Hrows & Hall).
  rewrite Hrows in Hr. apply list_elem_of_fmap in Hr as (l & -> & Hl).
  rewrite Forall_forall in Hall.
  exact (record_of_highlight d l Htr (Hall l Hl)).
Qed.

Lemma loop_result_agree (d1 d2 : gmap string pyval) (pkgs : list string) :
  Forall (fun l => looked_up d1 l = looked_up d2 l) pkgs ->
  loop_result tr (PDict d1) pkgs = loop_result tr (PDict d2) pkgs.
Proof.
  induction 1 as [|l pkgs Hl _ IH]; [reflexivity |].
  simpl. unfold record_of. by rewrite Hl, IH.
Qed.

(** X6: a scan looks up the listed packages and nothing else: two stores
    that give the same description (or none) for every word of the
    listing make the scan do exactly the same. *)
Theorem X6_scan_reads_listed_packages_only (d1 d2 : gmap string pyval)
    (cp : CompletedProcess) (s : State R) :
  listing_returns cp s ->
  Forall (fun l => looked_up d1 l = looked_up d2 l) (split (stdout cp)) ->
  scan (PDict d1) s = scan (PDict d2) s.
Proof.
  intros (ph & e1 & Hp & Ha) Hagree.
  destruct (adb R pm_list_args e1) as [o e2] eqn:Hadb. simpl in Ha. subst o.
  rewrite !scan_run. set (s0 := mkState _ _ _ _ _).
  rewrite (worker_scan_listed (PDict d1) s0 ph e1 e2 cp Hp Hadb).
  rewrite (worker_scan_listed (PDict d2) s0 ph e1 e2 cp Hp Hadb).
  rewrite !scan_loop_result.
  by rewrite (loop_result_agree d1 d2 _ Hagree).
Qed.

End ScanFrame.

(** * From the listing text to the package column *)

Lemma append_cons (x : ascii) (a b : string) :
  String x a +:+ b = String x (a +:+ b).
Proof. reflexivity. Qed.

Lemma append_nil_r (a : string) : a +:+ "" = a.
Proof.
  induction a as [|x a IH]; [reflexivity |]. by rewrite append_cons, IH.
Qed.

Lemma append_assoc (a b c : string) : (a +:+ b) +:+ c = a +:+ (b +:+ c).
Proof.
  induction a as [|x a IH]; [reflexivity |]. by rewrite !append_cons, IH.
Qed.

Lemma strip_prefix_append (p s : string) : strip_prefix p (p +:+ s) = Some s.
Proof.
  induction p as [|a p IH]; [reflexivity |].
  rewrite append_cons. simpl. by rewrite Ascii.eqb_refl.
Qed.

Lemma removeprefix_append (p s : string) : removeprefix p (p +:+ s) = s.
Proof. unfold removeprefix. by rewrite strip_prefix_append. Qed.

Lemma no_space_append (a b : string) :
  no_space a = true -> no_space b = true -> no_space (a +:+ b) = true.
Proof.
  intros Ha Hb. induction a as [|x a IH]; [exact Hb |].
  rewrite append_cons. simpl in *.
  apply andb_true_iff in Ha as [Hx Ha]. rewrite Hx. simpl. by apply IH.
Qed.

(** A run of characters without whitespace is read into the current
    word. *)
Lemma split_from_word (w cur rest : string) :
  no_space w = true ->
  split_from cur (w +:+ rest) = split_from (cur +:+ w) rest.
Proof.
  revert cur. induction w as [|c w IH]; intros cur Hw.
  - by rewrite append_nil_r.
  - rewrite append_cons. simpl in *.
    apply andb_true_iff in Hw as [Hc Hw].
    apply negb_true_iff in Hc. rewrite Hc, IH by exact Hw.
    f_equal. by rewrite append_assoc.
Qed.

Lemma split_pm_output (names : list string) :
  Forall (fun p => no_space p = true) names ->
  split (pm_output names) = map (fun p => "package:" +:+ p) names.
Proof.
  unfold split. induction 1 as [|p names Hp _ IH]; [reflexivity |].
  change (pm_output (p :: names))
    with ("package:" +:+ p +:+ newline +:+ pm_output names).
  rewrite <- append_assoc.
  rewrite split_from_word by by apply no_space_append.
  change ("" +:+ ("package:" +:+ p)) with ("package:" +:+ p).
  change (newline +:+ pm_output names) with (String "010" (pm_output names)).
  change (split_from ("package:" +:+ p) (String "010" (pm_output names)))
    with (("package:" +:+ p) :: split_from "" (pm_output names)).
  by rewrite IH.
Qed.

Section Listing.
Context {R : Runtime}.
#[local] Abbreviation tr := (gettext R).

(** X7: when the listing prints one line "package:<name>" per package,
    no name containing whitespace, a scan over a store of strings returns
    and its package column holds exactly the names, in the order
    printed. *)
Theorem X7_package_column_is_the_listing (d : gmap string pyval)
    (names : list string) (cp : CompletedProcess) (s : State R) :
  str_valued d ->
  Forall (fun p => no_space p = true) names ->
  listing_returns cp s ->
  stdout cp = pm_output names ->
  fst (scan (PDict d) s) = Returned tt
  /\ map package (listctrl (snd (scan (PDict d) s))) = names.
Proof.
  intros Hd Hnames Hl Hout.
  destruct (scan_listed (PDict d) cp s Hl) as [e2 ->].
  rewrite scan_loop_showable by by apply str_valued_showable.
  split; [reflexivity |]. simpl.
  rewrite Hout, split_pm_output by exact Hnames.
  rewrite !map_map. rewrite <- (map_id names) at 2.
  apply map_ext. intros p. by rewrite package_record_of, removeprefix_append.
Qed.

End Listing.

(** * More on the removal *)

Section RemoveFrame.
Context {R : Runtime}.
#[local] Abbreviation tr := (gettext R).

(** X8: with at least one item selected, [on_remove] asks for
    confirmation once, naming the selected packages one per line. When
    the answer is Yes it starts one uninstall worker on the packages of
    the selected items, in the order they are shown; on any other answer
    it starts nothing. Either way it issues no gateway command itself and
    leaves the list control and the queue as they were. *)
Theorem X8_remove_starts_worker_only_on_yes (s : State R) (p : string)
    (ps : list string) (answer : Z) (e : Env R) :
  map package (filter (fun r => selected r = true) (listctrl s)) = p :: ps ->
  MessageBox R
    (tr ("Uninstall the following?" +:+ newline +:+ newline)
     +:+ String.concat newline (p :: ps))
    (tr "Confirm") (env s)
  = (Returned answer, e) ->
  on_remove s
  = (Returned tt,
     mkState e (listctrl s)
       (if answer =? wx_YES then threads s ++ [AtUninstall (p :: ps)]
        else threads s)
       (ui_queue s) (adb_log s)).
Proof.
  intros Hsel Hbox. rewrite on_remove_run, Hsel, Hbox.
  by destruct (answer =? wx_YES).
Qed.

(** X9: when the gateway raises on a package of the batch, the uninstall
    worker ends with that error right there: the gateway was called for
    the packages before it and for it, in order, the packages after it
    are never attempted, and no rescan is queued. *)
Theorem X9_uninstall_stops_at_first_error (pre post : list string)
    (p : string) (s : State R) (e1 e2 : Env R) (x : exn) :
  uninstalls_return pre (env s) e1 ->
  adb R (uninstall_args p) e1 = (Raised x, e2) ->
  _worker_uninstall (pre ++ p :: post) s
  = (Raised x,
     mkState e2 (listctrl s) (threads s) (ui_queue s)
       (adb_log s ++ map uninstall_args (pre ++ [p]))).
Proof.
  intros Hpre Hp. unfold _worker_uninstall, mbind, M_bind.
  by rewrite (uninstall_loop_raises pre post p s e1 e2 x Hpre Hp).
Qed.

Lemma uninstall_loop_frame (pkgs : list string) (s : State R) :
  listctrl (snd (uninstall_loop pkgs s)) = listctrl s
  /\ threads (snd (uninstall_loop pkgs s)) = threads s
  /\ ui_queue (snd (uninstall_loop pkgs s)) = ui_queue s
  /\ exists k,
       (k <= length pkgs)%nat
       /\ adb_log (snd (uninstall_loop pkgs s))
          = adb_log s ++ map uninstall_args (take k pkgs)
       /\ (fst (uninstall_loop pkgs s) = Returned tt -> k = length pkgs).
Proof.
  revert s. induction pkgs as [|p pkgs IH]; intros s.
  - simpl. repeat split. exists 0%nat. simpl. rewrite app_nil_r. by repeat split.
  - simpl. unfold mbind, M_bind, call_adb, call. simpl.
    destruct (adb R (uninstall_args p) (env s)) as [[cp|x] e1]; simpl.
    + destruct (IH (set_env e1 (set_adb_log (adb_log s ++ [uninstall_args p]) s)))
        as (Hl & Ht & Hq & k & Hk & Hlog & Hret).
      split; [exact Hl |]. split; [exact Ht |]. split; [exact Hq |].
      exists (S k). split; [simpl; lia |]. split.
      * rewrite Hlog. simpl. by rewrite <- app_assoc.
      * intros Ho. by rewrite (Hret Ho).
    + repeat split. exists 1%nat. split; [simpl; lia |]. split; [| discriminate].
      simpl. by destruct pkgs.
Qed.

(** X10: whatever the gateway does, the uninstall worker leaves the list
    control and the threads alone, issues nothing but uninstall commands,
    for a leading part of the batch in the order given, and queues the
    rescan exactly when it returns, which it does only after the whole
    batch. *)
Theorem X10_uninstall_worker_frame (pkgs : list string) (s : State R) :
  listctrl (snd (_worker_uninstall pkgs s)) = listctrl s
  /\ threads (snd (_worker_uninstall pkgs s)) = threads s
  /\ (exists k,
        (k <= length pkgs)%nat
        /\ adb_log (snd (_worker_uninstall pkgs s))
           = adb_log s ++ map uninstall_args (take k pkgs)
        /\ (fst (_worker_uninstall pkgs s) = Returned tt -> k = length pkgs))
  /\ ui_queue (snd (_worker_uninstall pkgs s))
     = match fst (_worker_uninstall pkgs s) with
       | Returned _ => ui_queue s ++ [CallOnScan]
       | Raised _ => ui_queue s
       end.
Proof.
  destruct (uninstall_loop_frame pkgs s) as (Hl & Ht & Hq & k & Hk & Hlog & Hret).
  unfold _worker_uninstall, mbind, M_bind.
  destruct (uninstall_loop pkgs s) as [[[]|x] s1]; simpl in *.
  - split; [exact Hl |]. split; [exact Ht |]. split; [| by rewrite Hq].
    exists k. split; [exact Hk |]. split; [exact Hlog | intros _; by apply Hret].
  - split; [exact Hl |]. split; [exact Ht |]. split; [| exact Hq].
    exists k. split; [exact Hk |]. split; [exact Hlog | discriminate].
Qed.

(** X11: after a batch whose gateway calls all returned, the call the
    worker queued, once the UI loop runs it, empties the list and starts
    a scan worker; and that worker ends as a scan of the world the batch
    left behind does, with the same records. *)
Theorem X11_removal_then_refresh (db : pyval) (pkgs : list string)
    (s : State R) (e' : Env R) :
  uninstalls_return pkgs (env s) e' ->
  ui_queue s = [] ->
  let s1 := snd (_worker_uninstall pkgs s) in
  run_queued s1
  = (Returned tt,
     mkState e' [] (threads s ++ [AtScan]) []
       (adb_log s ++ map uninstall_args pkgs))
  /\ fst (_worker_scan db (snd (run_queued s1))) = fst (scan db (set_env e' s))
  /\ listctrl (snd (_worker_scan db (snd (run_queued s1))))
     = listctrl (snd (scan db (set_env e' s))).
Proof.
  intros Hrun Hq. cbv zeta.
  unfold _worker_uninstall, mbind, M_bind.
  rewrite (uninstall_loop_returns pkgs s e' Hrun). simpl.
  unfold run_queued. simpl. rewrite Hq. simpl.
  split; [reflexivity |]. rewrite scan_run.
  destruct (worker_scan_env_only db
              (mkState e' [] (threads s ++ [AtScan]) []
                 (adb_log s ++ map uninstall_args pkgs))
              (mkState (env (set_env e' s)) []
                 (threads (set_env e' s) ++ [AtScan]) (ui_queue (set_env e' s))
                 (adb_log (set_env e' s))) eq_refl eq_refl)
    as (Ho & Hl & _).
  by split.
Qed.

End RemoveFrame.

(** * The selection and the scan together *)

(** X12: the selection loop of [on_remove] ends within as many rounds as
    the list has items, whatever is selected, and has then collected the
    first column of the selected items, in the order they are shown. *)
Theorem X12_selection_loop_collects_selected (rows : list Row) (fuel : nat) :
  (length rows <= fuel)%nat ->
  selection_loop fuel rows (lc_GetFirstSelected rows) []
  = Some (map package (filter (fun r => selected r = true) rows)).
Proof.
  intros Hfuel.
  pose proof (selection_loop_suffix rows [] [] fuel Hfuel) as Hsel.
  simpl in Hsel. change (Z.of_nat 0 - 1) with (-1) in Hsel. exact Hsel.
Qed.

Section ScanThenRemove.
Context {R : Runtime}.
#[local] Abbreviation tr := (gettext R).

Lemma record_of_unselected (d : gmap string pyval) (pkg_line : string) :
  selected (record_of tr d pkg_line) = false.
Proof.
  unfold record_of.
  destruct (looked_up d pkg_line) as [| b | z | f | desc | xs | m]; simpl;
    repeat match goal with
      | |- context [if ?c then _ else _] => destruct c
      end; reflexivity.
Qed.

Lemma loop_result_unselected (db : pyval) (pkgs : list string) :
  Forall (fun r => selected r = false) (snd (loop_result tr db pkgs)).
Proof.
  induction pkgs as [|l pkgs IH]; simpl; [constructor |].
  destruct db as [| | | | | | d]; simpl; try constructor.
  destruct (showable (looked_up d l)); simpl.
  - destruct (loop_result tr (PDict d) pkgs) as [o more]. simpl in *.
    constructor; [apply record_of_unselected | exact IH].
  - constructor; [apply record_of_unselected | constructor].
Qed.

Lemma scan_unselected (db : pyval) (s : State R) :
  Forall (fun r => selected r = false) (listctrl (snd (scan db s))).
Proof.
  rewrite scan_run. set (s0 := mkState _ _ _ _ _).
  destruct (worker_scan_cases db s0)
    as [(e & _ & ->) | [(x & e & _ & ->) | [(ph & e1 & x & e2 & _ & _ & ->)
       | (ph & e1 & cp & e2 & _ & _ & ->)]]]; simpl; try constructor.
  apply loop_result_unselected.
Qed.

(** X13: a scan leaves nothing selected, however it ends, so
    [on_remove] right after a scan does nothing at all: no confirmation,
    no thread, no gateway command. *)
Theorem X13_remove_after_scan_is_noop (db : pyval) (s : State R) :
  Forall (fun r => selected r = false) (listctrl (snd (scan db s)))
  /\ on_remove (snd (scan db s)) = (Returned tt, snd (scan db s)).
Proof.
  pose proof (scan_unselected db s) as Hnone.
  split; [exact Hnone |].
  by rewrite on_remove_run, filter_none_selected.
Qed.

End ScanThenRemove.

(** * The further statements at concrete worlds *)

Lemma X2_witness :
  env (Fake.start Fake.two_apps [Fake.old_row]) = env (Fake.start Fake.two_apps [])
  /\ listctrl (snd (scan (PDict Fake.tracker_db)
                      (Fake.start Fake.two_apps [Fake.old_row])))
     = listctrl (snd (scan (PDict Fake.tracker_db) (Fake.start Fake.two_apps []))).
Proof.
  split; [reflexivity |].
  exact (proj1 (proj2 (X2_scan_forgets_previous_display (PDict Fake.tracker_db)
                         (Fake.start Fake.two_apps [Fake.old_row])
                         (Fake.start Fake.two_apps []) eq_refl))).
Defined.

Lemma X3_witness :
  env (snd (scan (PDict Fake.tracker_db) (Fake.start Fake.two_apps [])))
  = env (Fake.start Fake.two_apps [])
  /\ listctrl
       (snd (scan (PDict Fake.tracker_db)
               (snd (scan (PDict Fake.tracker_db) (Fake.start Fake.two_apps [])))))
     = listctrl (snd (scan (PDict Fake.tracker_db) (Fake.start Fake.two_apps []))).
Proof.
  split; [reflexivity |].
  exact (proj2 (X3_scan_twice_same_records (PDict Fake.tracker_db)
                  (Fake.start Fake.two_apps []) eq_refl)).
Defined.

Lemma X4_witness :
  (forall d, PList [] <> PDict d)
  /\ listing_returns
       (mkCompletedProcess 0
          (Fake.lines ["package:com.evil.tracker"; "package:com.safe.app"]))
       (Fake.start Fake.two_apps [])
  /\ fst (scan (PList []) (Fake.start Fake.two_apps [])) = Raised AttributeError
  /\ listctrl (snd (scan (PList []) (Fake.start Fake.two_apps []))) = [].
Proof.
  assert (Hdb : forall d, PList [] <> PDict d) by discriminate.
  split; [exact Hdb |]. split; [exact two_apps_listed |].
  exact (X4_store_of_wrong_type (PList []) _ (Fake.start Fake.two_apps [])
           Hdb two_apps_listed).
Defined.

Lemma X5_witness :
  gettext Fake.runtime "Suspicious" <> gettext Fake.runtime "Clean"
  /\ scan (PDict Fake.tracker_db) (Fake.start Fake.two_apps [])
     = (Returned tt,
        snd (scan (PDict Fake.tracker_db) (Fake.start Fake.two_apps [])))
  /\ forall r,
       r ∈ listctrl
             (snd (scan (PDict Fake.tracker_db) (Fake.start Fake.two_apps []))) ->
       (background r = Some (255, 230, 230) <-> status r = "Suspicious")
       /\ (background r = None <-> status r = "Clean")
       /\ selected r = false.
Proof.
  assert (Htr : gettext Fake.runtime "Suspicious"
                <> gettext Fake.runtime "Clean") by discriminate.
  split; [exact Htr |]. split; [exact two_apps_scan |].
  exact (X5_highlight_iff_suspicious Fake.tracker_db
           (Fake.start Fake.two_apps []) _ Htr two_apps_scan).
Defined.

Lemma X6_witness :
  listing_returns
    (mkCompletedProcess 0
       (Fake.lines ["package:com.evil.tracker"; "package:com.safe.app"]))
    (Fake.start Fake.two_apps [])
  /\ Forall
       (fun l =>
          looked_up Fake.tracker_db l
          = looked_up (<[ "com.absent.app" := PStr "Other" ]> Fake.tracker_db) l)
       (split (Fake.lines ["package:com.evil.tracker"; "package:com.safe.app"]))
  /\ scan (PDict Fake.tracker_db) (Fake.start Fake.two_apps [])
     = scan (PDict (<[ "com.absent.app" := PStr "Other" ]> Fake.tracker_db))
         (Fake.start Fake.two_apps []).
Proof.
  assert (Hagree :
            Forall
              (fun l =>
                 looked_up Fake.tracker_db l
                 = looked_up
                     (<[ "com.absent.app" := PStr "Other" ]> Fake.tracker_db) l)
              (split (Fake.lines
                        ["package:com.evil.tracker"; "package:com.safe.app"]))).
  { change (split (Fake.lines
                     ["package:com.evil.tracker"; "package:com.safe.app"]))
      with ["package:com.evil.tracker"; "package:com.safe.app"].
    constructor; [vm_compute; reflexivity |].
    constructor; [vm_compute; reflexivity | constructor]. }
  split; [exact two_apps_listed |]. split; [exact Hagree |].
  exact (X6_scan_reads_listed_packages_only Fake.tracker_db _ _
           (Fake.start Fake.two_apps []) two_apps_listed Hagree).
Defined.

Lemma X7_witness :
  str_valued Fake.tracker_db
  /\ Forall (fun p => no_space p = true) ["com.evil.tracker"; "com.safe.app"]
  /\ map package
       (listctrl
          (snd (scan (PDict Fake.tracker_db)
                  (Fake.start
                     (printed_world ["com.evil.tracker"; "com.safe.app"]) []))))
     = ["com.evil.tracker"; "com.safe.app"].
Proof.
  assert (Hnames : Forall (fun p => no_space p = true)
                     ["com.evil.tracker"; "com.safe.app"])
    by (repeat constructor).
  split; [exact tracker_db_str_valued |]. split; [exact Hnames |].
  refine (proj2 (X7_package_column_is_the_listing Fake.tracker_db
                   ["com.evil.tracker"; "com.safe.app"]
                   (mkCompletedProcess 0
                      (pm_output ["com.evil.tracker"; "com.safe.app"]))
                   (Fake.start
                      (printed_world ["com.evil.tracker"; "com.safe.app"]) [])
                   tracker_db_str_valued Hnames _ eq_refl)).
  exists tt, (printed_world ["com.evil.tracker"; "com.safe.app"]).
  split; reflexivity.
Defined.

Lemma X8_witness :
  map package
    (filter (fun r => selected r = true)
       (listctrl (Fake.start Fake.two_apps [Fake.picked_row; Fake.old_row])))
  = ["com.old.app"]
  /\ on_remove (Fake.start Fake.two_apps [Fake.picked_row; Fake.old_row])
     = (Returned tt,
        mkState (Fake.two_apps : Env Fake.runtime)
          [Fake.picked_row; Fake.old_row] [AtUninstall ["com.old.app"]] [] [])
  /\ on_remove (Fake.start declining_world [Fake.picked_row; Fake.old_row])
     = (Returned tt,
        mkState (declining_world : Env Fake.runtime)
          [Fake.picked_row; Fake.old_row] [] [] []).
Proof.
  split; [reflexivity |]. split.
  - exact (X8_remove_starts_worker_only_on_yes
             (Fake.start Fake.two_apps [Fake.picked_row; Fake.old_row])
             "com.old.app" [] wx_YES Fake.two_apps eq_refl eq_refl).
  - exact (X8_remove_starts_worker_only_on_yes
             (Fake.start declining_world [Fake.picked_row; Fake.old_row])
             "com.old.app" [] 8 declining_world eq_refl eq_refl).
Defined.

Lemma one_uninstall_returns :
  uninstalls_return (R := Fake.runtime) ["com.a"]
    (Fake.uninstall_fails "com.b") (Fake.uninstall_fails "com.b").
Proof. eapply uninstalls_cons; [reflexivity | apply uninstalls_nil]. Qed.

Lemma X9_witness :
  uninstalls_return (R := Fake.runtime) ["com.a"]
    (Fake.uninstall_fails "com.b") (Fake.uninstall_fails "com.b")
  /\ adb Fake.runtime (uninstall_args "com.b") (Fake.uninstall_fails "com.b")
     = (Raised DeviceCommandError, Fake.uninstall_fails "com.b")
  /\ _worker_uninstall ["com.a"; "com.b"; "com.c"]
       (Fake.start (Fake.uninstall_fails "com.b") [Fake.old_row])
     = (Raised DeviceCommandError,
        mkState (Fake.uninstall_fails "com.b" : Env Fake.runtime)
          [Fake.old_row] [] []
          [uninstall_args "com.a"; uninstall_args "com.b"]).
Proof.
  split; [exact one_uninstall_returns |]. split; [reflexivity |].
  exact (X9_uninstall_stops_at_first_error ["com.a"] ["com.c"] "com.b"
           (Fake.start (Fake.uninstall_fails "com.b") [Fake.old_row])
           _ _ DeviceCommandError one_uninstall_returns eq_refl).
Defined.

Lemma X11_witness :
  uninstalls_return (R := Fake.runtime) ["com.evil.tracker"; "com.ghost.app"]
    Fake.two_apps Fake.two_apps
  /\ ui_queue (Fake.start Fake.two_apps [Fake.old_row]) = []
  /\ run_queued
       (snd (_worker_uninstall ["com.evil.tracker"; "com.ghost.app"]
               (Fake.start Fake.two_apps [Fake.old_row])))
     = (Returned tt,
        mkState (Fake.two_apps : Env Fake.runtime) [] [AtScan] []
          [uninstall_args "com.evil.tracker"; uninstall_args "com.ghost.app"]).
Proof.
  split; [exact two_uninstalls_return |]. split; [reflexivity |].
  exact (proj1 (X11_removal_then_refresh (PDict Fake.tracker_db)
                  ["com.evil.tracker"; "com.ghost.app"]
                  (Fake.start Fake.two_apps [Fake.old_row]) Fake.two_apps
                  two_uninstalls_return eq_refl)).
Defined.

Lemma X12_witness :
  (length [Fake.picked_row; Fake.old_row; Fake.picked_row] <= 3)%nat
  /\ selection_loop 3 [Fake.picked_row; Fake.old_row; Fake.picked_row]
       (lc_GetFirstSelected [Fake.picked_row; Fake.old_row; Fake.picked_row]) []
     = Some ["com.old.app"; "com.old.app"].
Proof.
  assert (Hfuel : (length [Fake.picked_row; Fake.old_row; Fake.picked_row]
                   <= 3)%nat) by (simpl; lia).
  split; [exact Hfuel |].
  exact (X12_selection_loop_collects_selected
           [Fake.picked_row; Fake.old_row; Fake.picked_row] 3 Hfuel).
Defined.
